(** * The postgres migration driver (driver/postgres/postgres.go)

    A shallow embedding of the driver: its five interface methods, the
    transaction decision [canUseTransaction] and the shared execution
    routine [internalMigrate], over an explicit model of what the driver
    talks to (the database behind database/sql, the progress channel, the
    file reader).  Go's [int] is [Z], [uint64] is [N], byte strings and
    strings are [string]. *)

From Stdlib Require Import ZArith NArith List String Ascii Bool Lia.
Import ListNotations.
Open Scope string_scope.
Open Scope Z_scope.

Set Implicit Arguments.

(** ** Byte strings *)

(** The byte 0x0A, written "\n" in the Go source. *)
Definition newline : ascii := "010"%char.
Definition nl : string := String newline EmptyString.

(** strings.HasPrefix(s, prefix) *)
Definition HasPrefix (s pre : string) : bool := String.prefix pre s.

(** bytes.Join / strings.Join *)
Fixpoint join (sep : string) (parts : list string) : string :=
  match parts with
  | [] => EmptyString
  | [p] => p
  | p :: rest => p ++ sep ++ join sep rest
  end.

(** Does [sub] occur in [s] as a contiguous run of bytes? *)
Fixpoint contains (sub s : string) : bool :=
  String.prefix sub s ||
  match s with
  | EmptyString => false
  | String _ s' => contains sub s'
  end.

(** ** strconv *)

Module strconv.

Definition digitOf (c : ascii) : option Z :=
  let n := Z.of_nat (nat_of_ascii c) in
  if (48 <=? n) && (n <=? 57) then Some (n - 48) else None.

(** The digits of [s] read in base ten on top of [acc]; [None] where a
    byte is not a digit. *)
Fixpoint digits (s : string) (acc : Z) : option Z :=
  match s with
  | EmptyString => Some acc
  | String c s' =>
      match digitOf c with
      | Some d => digits s' (acc * 10 + d)
      | None => None
      end
  end.

Definition maxInt : Z := 9223372036854775807.
Definition minInt : Z := -9223372036854775808.

Definition inRange (n : Z) : option Z :=
  if (minInt <=? n) && (n <=? maxInt) then Some n else None.

(** strconv.Atoi: an optional sign, then at least one decimal digit and
    nothing else; the value has to fit the 64-bit [int].  [None] is the
    non-nil error. *)
Definition Atoi (s : string) : option Z :=
  match s with
  | EmptyString => None
  | String c rest =>
      if Ascii.eqb c "-" then
        match rest with
        | EmptyString => None
        | _ => match digits rest 0 with
               | Some n => inRange (- n)
               | None => None
               end
        end
      else if Ascii.eqb c "+" then
        match rest with
        | EmptyString => None
        | _ => match digits rest 0 with
               | Some n => inRange n
               | None => None
               end
        end
      else match digits s 0 with
           | Some n => inRange n
           | None => None
           end
  end.

Definition digitChar (d : Z) : ascii := ascii_of_nat (Z.to_nat (48 + d)).

(** The decimal digits of a positive number, most significant first;
    the recursion is on a bound of the number of digits. *)
Fixpoint digitsOf (fuel : nat) (n : Z) (acc : string) : string :=
  match fuel with
  | O => acc
  | S fuel' =>
      let acc' := String (digitChar (n mod 10)) acc in
      if n <? 10 then acc' else digitsOf fuel' (n / 10) acc'
  end.

(** strconv.Itoa, which is also what fmt's %v prints for an [int]. *)
Definition Itoa (n : Z) : string :=
  if n =? 0 then "0"
  else if n <? 0 then String "-" (digitsOf (S (Z.to_nat (Z.log2 (- n)))) (- n) EmptyString)
  else digitsOf (S (Z.to_nat (Z.log2 n))) n EmptyString.

End strconv.

(** ** lib/pq and database/sql values *)

Module pq.
(** pq.Error, the fields the driver reads.  [Code] is a pq.ErrorCode,
    a string type that %v prints as it is; [Position] is the decimal
    text of the error cursor position, empty when the server sent
    none. *)
Record Error : Type := mkError {
  Severity : string;
  Code : string;
  Message : string;
  Position : string
}.
End pq.

(** Go's [error] values, as far as the driver tells them apart. *)
Inductive error : Type :=
| PqError (e : pq.Error)        (* a *pq.Error *)
| ErrNoRows                     (* the sentinel sql.ErrNoRows *)
| errorString (s : string)      (* errors.New(s) *)
| otherError (s : string).      (* any other error, e.g. driver.ErrBadConn *)

(** ** direction and file (packages of the repository that the driver imports) *)

Module direction.
(** Modelled from the spec: the direction package is not part of the
    driver's source file; the spec gives a migration file a direction
    "Up | Down".  The driver compares with both constants in an
    if / else-if without a final else, so a value that is neither is kept
    as [Neither]. *)
Inductive Direction : Type := Up | Down | Neither.

Definition eqb (a b : Direction) : bool :=
  match a, b with
  | Up, Up | Down, Down | Neither, Neither => true
  | _, _ => false
  end.
End direction.

Module file.

(** Modelled from the spec: the File type is declared in the file
    package, which is not part of the driver's source file.  The spec's
    migration file has a version number (unsigned), a direction and the
    raw SQL text, loaded lazily. *)
Record File : Type := mkFile {
  Version : N;
  Direction : direction.Direction;
  Content : string
}.

Definition setContent (f : File) (c : string) : File :=
  {| Version := Version f; Direction := Direction f; Content := c |}.

(** Modelled from the spec: ReadContent is declared in the file package,
    not in the driver's source file.  "Load the file's SQL content on
    demand. On read failure, publish the error and terminate": the read
    either fails with an error or leaves the text in [Content].  [read] is
    what the file system answers. *)
Definition ReadContent (read : File -> error + string) (f : File)
  : option error * File :=
  match read f with
  | inl err => (Some err, f)
  | inr c => (None, setContent f c)
  end.

(** Number of newline bytes in [s]. *)
Fixpoint countNewlines (s : string) : Z :=
  match s with
  | EmptyString => 0
  | String c s' => (if Ascii.eqb c newline then 1 else 0) + countNewlines s'
  end.

(** The first [n] bytes of [s]. *)
Fixpoint take (n : nat) (s : string) : string :=
  match n, s with
  | O, _ => EmptyString
  | S _, EmptyString => EmptyString
  | S n', String c s' => String c (take n' s')
  end.

(** Index of the last newline byte of [s], counting from [i] for the
    first byte; [last] where there is none. *)
Fixpoint lastNewline (s : string) (i last : Z) : Z :=
  match s with
  | EmptyString => last
  | String c s' => lastNewline s' (i + 1) (if Ascii.eqb c newline then i else last)
  end.

(** Modelled from the spec: LineColumnFromOffset is declared in the file
    package, not in the driver's source file.  "offsets are 0-based byte
    positions into the SQL text as originally read; line numbers and
    column numbers reported to the user are 1-based, computed by counting
    newline bytes preceding the offset and the distance since the last
    newline."  Outside the text the spec is silent; the count is taken
    over the bytes there are. *)
Definition LineColumnFromOffset (data : string) (offset : Z) : Z * Z :=
  let before := take (Z.to_nat offset) data in
  (1 + countNewlines before, offset - lastNewline before 0 (-1)).

(** The text cut at every newline byte: one line more than there are
    newline bytes. *)
Fixpoint splitLines (s : string) : list string :=
  match s with
  | EmptyString => [EmptyString]
  | String c s' =>
      if Ascii.eqb c newline then EmptyString :: splitLines s'
      else match splitLines s' with
           | [] => [String c EmptyString]
           | l :: ls => String c l :: ls
           end
  end.

(** The lines with their 1-based numbers, from number [k] on. *)
Fixpoint numbered (k : Z) (ls : list string) : list (Z * string) :=
  match ls with
  | [] => []
  | l :: ls' => (k, l) :: numbered (k + 1) ls'
  end.

Definition inWindow (line before after : Z) (kl : Z * string) : bool :=
  (line - before <=? fst kl) && (fst kl <=? line + after).

(** The lines of [data] numbered [line - before] to [line + after], as
    far as they exist. *)
Definition windowLines (data : string) (line before after : Z) : list string :=
  map snd (filter (inWindow line before after) (numbered 1 (splitLines data))).

(** Modelled from the spec: LinesBeforeAndAfter is declared in the file
    package, not in the driver's source file.  "extract a context window
    of 5 lines before and 5 lines after the error line (inclusive of the
    error line, trimmed at file boundaries)".  The driver passes [true] as
    a fifth argument; the spec gives it no meaning, and the window is the
    lines as they are in the text. *)
Definition LinesBeforeAndAfter (data : string) (line before after : Z)
           (flag : bool) : string :=
  join nl (windowLines data line before after).

End file.

(** ** What the driver acts on: channel, database, file reader *)

(** The values the driver sends on the progress channel (a
    [chan interface{}]): the file, or an error. *)
Inductive item : Type :=
| ItemFile (f : file.File)
| ItemError (e : error).

(** Which implementation of the [dbExecer] interface a statement went
    through: the connection (a *sql.DB) or a transaction (a *sql.Tx). *)
Inductive handle : Type := OnDB | OnTx.

(** The calls the driver makes into database/sql. *)
Inductive call : Type :=
| CallOpen (driverName url : string)
| CallPing
| CallClose
| CallBegin
| CallCommit
| CallRollback
| CallExec (h : handle) (query : string) (args : list N)
| CallQueryRow (query : string).

(** What an observer sees of a run, in order: values sent on the channel,
    the channel being closed, calls into database/sql with the error they
    came back with. *)
Inductive event : Type :=
| Send (v : item)
| Closed
| Call (c : call) (r : option error).

(** The part of the outside that the driver cannot determine: what reading
    a file gives, what the server does with the text of a migration on the
    version table (the rows it leaves, the error it reports), and which
    calls fail for reasons of their own (a lost connection, a refused
    login). *)
Record Env : Type := mkEnv {
  readFile : file.File -> error + string;
  runScript : string -> list N -> list N * option error;
  fault : call -> option error
}.

(** The state a run changes: the committed rows of the version table, the
    working copy of the open transaction (if one is open), whether the
    progress channel has been closed, and everything observed so far. *)
Record World : Type := mkWorld {
  rows : list N;
  txrows : option (list N);
  closed : bool;
  trace : list event
}.

(** A call returns a value or panics; either way the world has moved. *)
Inductive outcome (A : Type) : Type :=
| Done (a : A)
| Panic (msg : string).
Arguments Panic {A} msg.

Definition M (A : Type) : Type := World -> outcome A * World.

Definition ret {A : Type} (a : A) : M A := fun w => (Done a, w).

Definition bind {A B : Type} (m : M A) (k : A -> M B) : M B :=
  fun w =>
    match m w with
    | (Done a, w') => k a w'
    | (Panic msg, w') => (Panic msg, w')
    end.

Definition panic {A : Type} (msg : string) : M A := fun w => (Panic msg, w).

Notation "x <- m ;; k" := (bind m (fun x => k))
  (at level 61, m at next level, right associativity).
Notation "m ;;; k" := (bind m (fun _ => k))
  (at level 61, right associativity).

(** [defer d] around a body: [d] runs when the body is left, by return or
    by panic; a panic of [d] itself is the one that goes on. *)
Definition defer {A : Type} (d : M unit) (body : M A) : M A :=
  fun w =>
    match body w with
    | (r, w') =>
        match d w' with
        | (Done _, w'') => (r, w'')
        | (Panic msg, w'') => (Panic msg, w'')
        end
    end.

Definition observe (e : event) (w : World) : World :=
  {| rows := rows w; txrows := txrows w; closed := closed w;
     trace := trace w ++ [e] |}.

(** [pipe <- v] with a receiver at the other end; on a closed channel a
    send panics. *)
Definition send (v : item) : M unit :=
  fun w =>
    if closed w then (Panic "send on closed channel", w)
    else (Done tt, observe (Send v) w).

(** [close(pipe)]; closing twice panics. *)
Definition closePipe : M unit :=
  fun w =>
    if closed w then (Panic "close of closed channel", w)
    else (Done tt,
          {| rows := rows w; txrows := txrows w; closed := true;
             trace := trace w ++ [Closed] |}).

Definition nilDereference : string :=
  "invalid memory address or nil pointer dereference".

Definition ErrTxDone : error :=
  otherError "sql: Transaction has already been committed or rolled back".

Definition uniqueViolation : error :=
  PqError {| pq.Severity := "ERROR"; pq.Code := "23505";
             pq.Message := "duplicate key value violates unique constraint";
             pq.Position := "" |}.

(** ** The driver *)

Definition tableName : string := "schema_migrations".

Definition createStmt : string :=
  "CREATE TABLE IF NOT EXISTS " ++ tableName ++ " (version int not null primary key);".
Definition insertStmt : string :=
  "INSERT INTO " ++ tableName ++ " (version) VALUES ($1)".
Definition deleteStmt : string :=
  "DELETE FROM " ++ tableName ++ " WHERE version=$1".
Definition selectStmt : string :=
  "SELECT version FROM " ++ tableName ++ " ORDER BY version DESC LIMIT 1".

(** The objects behind the two pointer types; a nil pointer is [None]. *)
Inductive sqlDB : Type := theDB.
Inductive sqlTx : Type := theTx.

(** type Driver struct { db *sql.DB } *)
Record Driver : Type := mkDriver { db : option sqlDB }.

(** type dbExecer interface { Exec(query string, args ...interface{}) (sql.Result, error) }
    The driver drops the sql.Result of every call. *)
Class dbExecer (H : Type) : Type :=
  Exec : H -> string -> list N -> M (option error).

(** func canUseTransaction(sql string) bool *)
Definition canUseTransaction (sql : string) : bool :=
  negb (HasPrefix sql ("-- migrate: no-transaction" ++ nl)).

(** The string of the error with line, column and context. *)
Definition positionMessage (pqErr : pq.Error) (lineNo columnNo : Z)
           (errorPart : string) : string :=
  pq.Severity pqErr ++ " " ++ pq.Code pqErr ++ ": " ++ pq.Message pqErr
    ++ " in line " ++ strconv.Itoa lineNo ++ ", column " ++ strconv.Itoa columnNo
    ++ ":" ++ nl ++ nl ++ errorPart.

(** The string of the error without a position. *)
Definition plainMessage (pqErr : pq.Error) : string :=
  pq.Severity pqErr ++ " " ++ pq.Code pqErr ++ ": " ++ pq.Message pqErr.

(** func internalMigrate(tx dbExecer, f file.File) error *)
Definition internalMigrate {H : Type} {E : dbExecer H} (tx : H) (f : file.File)
  : M (option error) :=
  err <- Exec tx (file.Content f) [] ;;
  match err with
  | Some (PqError pqErr) =>
      match strconv.Atoi (pq.Position pqErr) with
      | Some offset =>
          if 0 <=? offset then
            let (lineNo, columnNo) :=
              file.LineColumnFromOffset (file.Content f) (offset - 1) in
            let errorPart :=
              file.LinesBeforeAndAfter (file.Content f) lineNo 5 5 true in
            ret (Some (errorString
                         (positionMessage pqErr lineNo columnNo errorPart)))
          else ret (Some (errorString (plainMessage pqErr)))
      | None => ret (Some (errorString (plainMessage pqErr)))
      end
  | Some _ =>
      (* the type assertion to *pq.Error, on an error of another type *)
      panic "interface conversion: error is not *pq.Error"
  | None =>
      if direction.eqb (file.Direction f) direction.Up then
        err <- Exec tx insertStmt [file.Version f] ;;
        match err with
        | Some err => ret (Some err)
        | None => ret None
        end
      else if direction.eqb (file.Direction f) direction.Down then
        err <- Exec tx deleteStmt [file.Version f] ;;
        match err with
        | Some err => ret (Some err)
        | None => ret None
        end
      else ret None
  end.

Section Driver.

Variable env : Env.

(** *** The database behind database/sql *)

Definition record (c : call) (r : option error) (w : World) : World :=
  observe (Call c r) w.

Definition hasRow (v : N) (t : list N) : bool := existsb (N.eqb v) t.

(** What the server does with a statement on the version table [t]: the
    driver's own three statements have their SQL meaning ([version] is
    the primary key, so a second row of one version is refused; a delete
    that matches nothing is no error), any other text is a migration. *)
Definition serverExec (query : string) (args : list N) (t : list N)
  : list N * option error :=
  if String.eqb query insertStmt then
    match args with
    | [v] => if hasRow v t then (t, Some uniqueViolation) else ((t ++ [v])%list, None)
    | _ => runScript env query t
    end
  else if String.eqb query deleteStmt then
    match args with
    | [v] => (filter (fun x => negb (N.eqb x v)) t, None)
    | _ => runScript env query t
    end
  else if String.eqb query createStmt then (t, None)
  else runScript env query t.

(** sql.Open("postgres", url) *)
Definition sqlOpen (driverName url : string) : M (error + sqlDB) :=
  fun w =>
    match fault env (CallOpen driverName url) with
    | Some e => (Done (inl e), record (CallOpen driverName url) (Some e) w)
    | None => (Done (inr theDB), record (CallOpen driverName url) None w)
    end.

(** Ping, on a *sql.DB *)
Definition Ping (d : option sqlDB) : M (option error) :=
  match d with
  | None => panic nilDereference
  | Some _ => fun w => (Done (fault env CallPing), record CallPing (fault env CallPing) w)
  end.

(** Close, on a *sql.DB *)
Definition dbClose (d : option sqlDB) : M (option error) :=
  match d with
  | None => panic nilDereference
  | Some _ => fun w => (Done (fault env CallClose), record CallClose (fault env CallClose) w)
  end.

(** Exec on a *sql.DB: the statement runs on the committed rows. *)
Definition dbExec (d : option sqlDB) (query : string) (args : list N)
  : M (option error) :=
  match d with
  | None => panic nilDereference
  | Some _ =>
      fun w =>
        let c := CallExec OnDB query args in
        match fault env c with
        | Some e => (Done (Some e), record c (Some e) w)
        | None =>
            let (t, r) := serverExec query args (rows w) in
            (Done r,
             record c r {| rows := t; txrows := txrows w;
                           closed := closed w; trace := trace w |})
        end
  end.

(** Exec on a *sql.Tx: the statement runs on the transaction's copy. *)
Definition txExec (tx : sqlTx) (query : string) (args : list N)
  : M (option error) :=
  fun w =>
    let c := CallExec OnTx query args in
    match txrows w with
    | None => (Done (Some ErrTxDone), record c (Some ErrTxDone) w)
    | Some t0 =>
        match fault env c with
        | Some e => (Done (Some e), record c (Some e) w)
        | None =>
            let (t, r) := serverExec query args t0 in
            (Done r,
             record c r {| rows := rows w; txrows := Some t;
                           closed := closed w; trace := trace w |})
        end
    end.

#[export] Instance dbExecer_DB : dbExecer (option sqlDB) := dbExec.
#[export] Instance dbExecer_Tx : dbExecer sqlTx := txExec.

(** Begin, on a *sql.DB: the transaction starts from the committed rows. *)
Definition Begin (d : option sqlDB) : M (error + sqlTx) :=
  match d with
  | None => panic nilDereference
  | Some _ =>
      fun w =>
        match fault env CallBegin with
        | Some e => (Done (inl e), record CallBegin (Some e) w)
        | None =>
            (Done (inr theTx),
             record CallBegin None
                    {| rows := rows w; txrows := Some (rows w);
                       closed := closed w; trace := trace w |})
        end
  end.

(** Commit, on a *sql.Tx: the copy becomes the committed rows; a commit
    that fails leaves them as they were.  The transaction is over
    either way. *)
Definition Commit (tx : sqlTx) : M (option error) :=
  fun w =>
    match txrows w with
    | None => (Done (Some ErrTxDone), record CallCommit (Some ErrTxDone) w)
    | Some t =>
        match fault env CallCommit with
        | Some e =>
            (Done (Some e),
             record CallCommit (Some e)
                    {| rows := rows w; txrows := None;
                       closed := closed w; trace := trace w |})
        | None =>
            (Done None,
             record CallCommit None
                    {| rows := t; txrows := None;
                       closed := closed w; trace := trace w |})
        end
    end.

(** Rollback, on a *sql.Tx: the copy is dropped. *)
Definition Rollback (tx : sqlTx) : M (option error) :=
  fun w =>
    match txrows w with
    | None => (Done (Some ErrTxDone), record CallRollback (Some ErrTxDone) w)
    | Some _ =>
        (Done (fault env CallRollback),
         record CallRollback (fault env CallRollback)
                {| rows := rows w; txrows := None;
                   closed := closed w; trace := trace w |})
    end.

Definition maxVersion (t : list N) : N := fold_right N.max 0%N t.

(** QueryRow(query).Scan(&version) on a *sql.DB, for the driver's one
    query: the value left in [version] and the error. *)
Definition queryRowScan (d : option sqlDB) (query : string) : M (N * option error) :=
  match d with
  | None => panic nilDereference
  | Some _ =>
      fun w =>
        let c := CallQueryRow query in
        match fault env c with
        | Some e => (Done (0%N, Some e), record c (Some e) w)
        | None =>
            match rows w with
            | [] => (Done (0%N, Some ErrNoRows), record c (Some ErrNoRows) w)
            | t => (Done (maxVersion t, None), record c None w)
            end
        end
  end.

(** *** The methods of the driver *)

(** func (driver *Driver) ensureVersionTableExists() error *)
Definition ensureVersionTableExists (driver : Driver) : M (option error) :=
  err <- Exec (db driver) createStmt [] ;;
  match err with
  | Some err => ret (Some err)
  | None => ret None
  end.

(** func (driver *Driver) Initialize(url string) error
    The driver as the call leaves it comes back with the error. *)
Definition Initialize (driver : Driver) (url : string) : M (Driver * option error) :=
  r <- sqlOpen "postgres" url ;;
  match r with
  | inl err => ret (driver, Some err)
  | inr d =>
      err <- Ping (Some d) ;;
      match err with
      | Some err => ret (driver, Some err)
      | None =>
          let driver := {| db := Some d |} in
          err <- ensureVersionTableExists driver ;;
          match err with
          | Some err => ret (driver, Some err)
          | None => ret (driver, None)
          end
      end
  end.

(** func (driver *Driver) Close() error *)
Definition Close (driver : Driver) : M (option error) :=
  err <- dbClose (db driver) ;;
  match err with
  | Some err => ret (Some err)
  | None => ret None
  end.

(** func (driver *Driver) FilenameExtension() string *)
Definition FilenameExtension (driver : Driver) : string := "sql".

(** func (driver *Driver) Migrate(f file.File, pipe chan interface{}) *)
Definition Migrate (driver : Driver) (f : file.File) : M unit :=
  defer closePipe
    (send (ItemFile f) ;;;
     let (rerr, f) := file.ReadContent (readFile env) f in
     match rerr with
     | Some err => send (ItemError err)
     | None =>
         if negb (canUseTransaction (file.Content f)) then
           err <- internalMigrate (db driver) f ;;
           match err with
           | Some err => send (ItemError err)
           | None => ret tt
           end
         else
           r <- Begin (db driver) ;;
           match r with
           | inl err => send (ItemError err)
           | inr tx =>
               err <- internalMigrate tx f ;;
               match err with
               | Some err =>
                   send (ItemError err) ;;;
                   err <- Rollback tx ;;
                   match err with
                   | Some err => send (ItemError err)
                   | None => ret tt
                   end
               | None =>
                   err <- Commit tx ;;
                   match err with
                   | Some err => send (ItemError err)
                   | None => ret tt
                   end
               end
           end
     end).

(** func (driver *Driver) Version() (uint64, error) *)
Definition Version (driver : Driver) : M (N * option error) :=
  r <- queryRowScan (db driver) selectStmt ;;
  let (version, err) := r in
  match err with
  | Some ErrNoRows => ret (0%N, None)
  | Some err => ret (0%N, Some err)
  | None => ret (version, None)
  end.

End Driver.

(** ** Vocabulary of the statements below *)

(** The text after the last newline byte. *)
Definition lastLine (s : string) : string :=
  last (file.splitLines s) EmptyString.

(** The text of line [line] (1-based) of [data]. *)
Definition lineText (data : string) (line : Z) : string :=
  nth (Z.to_nat (line - 1)) (file.splitLines data) EmptyString.

Definition isClose (e : event) : bool :=
  match e with Closed => true | _ => false end.

(** How often a run closed the channel. *)
Definition closes (evs : list event) : nat := List.length (filter isClose evs).

(** A computation that leaves an open channel open and closes nothing,
    whether it returns or panics. *)
Definition quiet {A : Type} (m : M A) : Prop :=
  forall w, closed w = false ->
    closed (snd (m w)) = false /\
    exists evs, trace (snd (m w)) = (trace w ++ evs)%list /\ closes evs = 0%nat.

(** The first line that takes a migration out of the transaction. *)
Definition noTransactionMarker : string := "-- migrate: no-transaction" ++ nl.

Definition onTransaction (e : event) : bool :=
  match e with
  | Call CallBegin _ | Call CallCommit _ | Call CallRollback _
  | Call (CallExec OnTx _ _) _ => true
  | _ => false
  end.

Definition isExec (e : event) : bool :=
  match e with Call (CallExec _ _ _) _ => true | _ => false end.

Definition failedExec (e : event) : bool :=
  match e with Call (CallExec _ _ _) (Some _) => true | _ => false end.

Definition isCommit (e : event) : bool :=
  match e with Call CallCommit _ => true | _ => false end.

Definition isRollback (e : event) : bool :=
  match e with Call CallRollback _ => true | _ => false end.

(** The two handles of the driver, by name. *)
Definition execOn (env : Env) (h : handle) (query : string) (args : list N)
  : M (option error) :=
  match h with
  | OnDB => dbExec env (Some theDB) query args
  | OnTx => txExec env theTx query args
  end.

Definition internalMigrateOn (env : Env) (h : handle) (f : file.File)
  : M (option error) :=
  match h with
  | OnDB => internalMigrate (E := dbExecer_DB env) (Some theDB) f
  | OnTx => internalMigrate (E := dbExecer_Tx env) theTx f
  end.

(** The version table a handle works on. *)
Definition table (h : handle) (w : World) : option (list N) :=
  match h with
  | OnDB => Some (rows w)
  | OnTx => txrows w
  end.

(** Concrete environments, files and worlds for the examples. *)
Module Examples.

Definition markedText : string := noTransactionMarker ++ "VACUUM;" ++ nl.
Definition plainText : string := "SELECT 1;" ++ nl ++ "BAD SQL;" ++ nl.

Definition syntaxError (position : string) : pq.Error :=
  {| pq.Severity := "ERROR"; pq.Code := "42601";
     pq.Message := "syntax error at or near BAD"; pq.Position := position |}.

(** Every call succeeds and a migration leaves the version table alone. *)
Definition calm (text : string) : Env :=
  {| readFile := fun _ => inr text;
     runScript := fun _ t => (t, None);
     fault := fun _ => None |}.

(** The server refuses the migration at [position], after the text has
    put a row 99 into the version table. *)
Definition refusing (text position : string) : Env :=
  {| readFile := fun _ => inr text;
     runScript := fun _ t => ((t ++ [99%N])%list, Some (PqError (syntaxError position)));
     fault := fun _ => None |}.

(** As [refusing], and Rollback fails as well. *)
Definition stuck (text position : string) : Env :=
  {| readFile := fun _ => inr text;
     runScript := fun _ t => ((t ++ [99%N])%list, Some (PqError (syntaxError position)));
     fault := fun c => match c with
                       | CallRollback => Some (otherError "driver: bad connection")
                       | _ => None
                       end |}.

(** The connection is lost while the migration runs. *)
Definition lost (text : string) : Env :=
  {| readFile := fun _ => inr text;
     runScript := fun _ t => (t, None);
     fault := fun c => match c with
                       | CallExec _ _ [] => Some (otherError "driver: bad connection")
                       | _ => None
                       end |}.

(** The table cannot be created (say, for want of a privilege). *)
Definition readOnly : Env :=
  {| readFile := fun _ => inr plainText;
     runScript := fun _ t => (t, None);
     fault := fun c => match c with
                       | CallExec _ _ _ =>
                           Some (PqError {| pq.Severity := "ERROR"; pq.Code := "42501";
                                            pq.Message := "permission denied for schema public";
                                            pq.Position := "" |})
                       | _ => None
                       end |}.

Definition up3 : file.File :=
  {| file.Version := 3; file.Direction := direction.Up; file.Content := "" |}.
Definition down3 : file.File :=
  {| file.Version := 3; file.Direction := direction.Down; file.Content := "" |}.

Definition live : Driver := {| db := Some theDB |}.
Definition fresh : Driver := {| db := None |}.

Definition start (t : list N) : World :=
  {| rows := t; txrows := None; closed := false; trace := [] |}.

End Examples.

(** ** Further vocabulary *)

(** The byte 0x0D. *)
Definition carriageReturn : ascii := "013"%char.

Definition isErrorSend (e : event) : bool :=
  match e with Send (ItemError _) => true | _ => false end.

(** A Begin, Commit or Rollback that came back without error. *)
Definition isBeginOk (e : event) : bool :=
  match e with Call CallBegin None => true | _ => false end.

Definition isCommitOk (e : event) : bool :=
  match e with Call CallCommit None => true | _ => false end.

Definition isRollbackFailed (e : event) : bool :=
  match e with Call CallRollback (Some _) => true | _ => false end.

(** The events a migration may leave: sends, the close, and calls on a
    transaction or Exec; not Open, Ping, Close or QueryRow. *)
Definition migrationEvent (e : event) : bool :=
  match e with
  | Send _ | Closed => true
  | Call CallBegin _ | Call CallCommit _ | Call CallRollback _
  | Call (CallExec _ _ _) _ => true
  | Call _ _ => false
  end.

(** The world handed to the next call of Migrate: the caller makes a new
    channel for every migration. *)
Definition newChannel (w : World) : World :=
  {| rows := rows w; txrows := txrows w; closed := false; trace := trace w |}.

(** What the version statement of a file makes of a table. *)
Definition versionRow (f : file.File) (t : list N) : list N :=
  match file.Direction f with
  | direction.Up => (t ++ [file.Version f])%list
  | direction.Down => filter (fun x => negb (N.eqb x (file.Version f))) t
  | direction.Neither => t
  end.

(** ** Tactics: running the driver by cases *)

Arguments serverExec : simpl never.

Ltac unfold_driver :=
  unfold Migrate, Version, Close, Initialize, ensureVersionTableExists,
    internalMigrate, Exec, dbExecer_DB, dbExecer_Tx, dbExec, txExec,
    Begin, Commit, Rollback, sqlOpen, Ping, dbClose, queryRowScan,
    defer, bind, ret, panic, send, closePipe, record, observe,
    file.ReadContent in *.

Ltac norm :=
  cbv beta iota;
  cbn [fst snd rows txrows closed trace db
       file.Content file.Version file.Direction file.setContent] in *.

(** Split on the scrutinee of an innermost match, or rewrite it with what
    is known of it. *)
Ltac split_inner :=
  match goal with
  | |- context [match ?x with _ => _ end] =>
      lazymatch x with
      | context [match _ with _ => _ end] => fail
      | _ => first [ match goal with H : x = _ |- _ => rewrite H end
                   | destruct x eqn:? ]
      end
  end.

Ltac run_driver := unfold_driver; repeat (norm; split_inner); norm.

(** Bring a trace to the form [trace w ++ [e1; ...; en]]. *)
Ltac flat_trace := rewrite <- ?app_assoc; cbn [app].

(** * Properties *)

Unset Implicit Arguments.

Arguments file.LineColumnFromOffset : simpl never.
Arguments file.LinesBeforeAndAfter : simpl never.
Arguments strconv.Atoi : simpl never.
Arguments strconv.Itoa : simpl never.
Arguments positionMessage : simpl never.
Arguments plainMessage : simpl never.
Arguments canUseTransaction : simpl never.

(** ** Lines and columns *)

Section Lines.

Import file.

Lemma take_app (pre rest : string) :
  take (String.length pre) (pre ++ rest) = pre.
Proof.
  induction pre as [|c pre IH]; simpl.
  - reflexivity.
  - now rewrite IH.
Qed.

Lemma countNewlines_nonneg (s : string) : 0 <= countNewlines s.
Proof.
  induction s as [|c s IH]; simpl; [lia|].
  destruct (Ascii.eqb c newline); lia.
Qed.

Lemma countNewlines_app (a b : string) :
  countNewlines (a ++ b) = countNewlines a + countNewlines b.
Proof.
  induction a as [|c a IH]; simpl; [reflexivity|].
  rewrite IH. lia.
Qed.

Lemma splitLines_length (s : string) :
  Z.of_nat (List.length (splitLines s)) = 1 + countNewlines s.
Proof.
  induction s as [|c s IH]; [reflexivity|].
  cbn [splitLines countNewlines].
  destruct (Ascii.eqb c newline).
  - cbn [List.length]. lia.
  - pose proof (countNewlines_nonneg s).
    destruct (splitLines s) as [|l ls]; cbn [List.length] in *; lia.
Qed.

Lemma lastLine_cons (c : ascii) (s : string) :
  lastLine (String c s) =
  if Ascii.eqb c newline then lastLine s
  else if countNewlines s =? 0 then String c (lastLine s)
       else lastLine s.
Proof.
  unfold lastLine. cbn [splitLines].
  pose proof (splitLines_length s) as Hlen.
  pose proof (countNewlines_nonneg s) as Hnn.
  destruct (Ascii.eqb c newline).
  - destruct (splitLines s) as [|l ls]; [cbn [List.length] in Hlen; lia | reflexivity].
  - destruct (splitLines s) as [|l [|l' ls]]; cbn [List.length] in Hlen.
    + lia.
    + replace (countNewlines s) with 0 by lia. reflexivity.
    + destruct (Z.eqb_spec (countNewlines s) 0); [lia | reflexivity].
Qed.

Lemma lastLine_length (s : string) :
  (String.length (lastLine s) <= String.length s)%nat.
Proof.
  induction s as [|c s IH]; [apply Nat.le_refl|].
  rewrite lastLine_cons.
  destruct (Ascii.eqb c newline); [simpl; lia|].
  destruct (countNewlines s =? 0); simpl; lia.
Qed.

Lemma lastLine_no_newline (s : string) :
  countNewlines s = 0 -> lastLine s = s.
Proof.
  induction s as [|d s IH]; intros H0; [reflexivity|].
  rewrite lastLine_cons. cbn [countNewlines] in H0.
  pose proof (countNewlines_nonneg s).
  destruct (Ascii.eqb d newline); [lia|].
  replace (countNewlines s) with 0 by lia. cbn [Z.eqb].
  rewrite IH by lia. reflexivity.
Qed.

(** Where the scan for the last newline ends: at the byte before the
    last line, or at the initial value when no byte is a newline. *)
Lemma lastNewline_spec (s : string) :
  forall i last,
    lastNewline s i last =
    if countNewlines s =? 0 then last
    else i + Z.of_nat (String.length s) - 1 - Z.of_nat (String.length (lastLine s)).
Proof.
  induction s as [|c s IH]; intros i last0.
  - reflexivity.
  - cbn [lastNewline countNewlines]. rewrite IH, lastLine_cons.
    pose proof (countNewlines_nonneg s) as Hnn.
    cbn [String.length].
    destruct (Ascii.eqb c newline) eqn:Hc.
    + destruct (Z.eqb_spec (countNewlines s) 0) as [H0|H0].
      * destruct (Z.eqb_spec (1 + countNewlines s) 0); [lia|].
        rewrite (lastLine_no_newline s H0). lia.
      * destruct (Z.eqb_spec (1 + countNewlines s) 0); lia.
    + replace (0 + countNewlines s) with (countNewlines s) by lia.
      destruct (Z.eqb_spec (countNewlines s) 0); [reflexivity | lia].
Qed.

(** A position at the end of [pre] is on the line after the newlines of
    [pre], one column past its last line. *)
Lemma LineColumnFromOffset_split (pre rest : string) :
  LineColumnFromOffset (pre ++ rest) (Z.of_nat (String.length pre)) =
  (1 + countNewlines pre, 1 + Z.of_nat (String.length (lastLine pre))).
Proof.
  unfold LineColumnFromOffset.
  rewrite Nat2Z.id, take_app, lastNewline_spec.
  f_equal.
  destruct (Z.eqb_spec (countNewlines pre) 0) as [H0|H0]; [|lia].
  rewrite (lastLine_no_newline pre H0). lia.
Qed.

Lemma numbered_nth (ls : list string) :
  forall k i, (i < List.length ls)%nat ->
    In (k + Z.of_nat i, nth i ls EmptyString) (numbered k ls).
Proof.
  induction ls as [|l ls IH]; intros k i Hi; simpl in Hi; [lia|].
  destruct i as [|i]; simpl.
  - left. f_equal. lia.
  - right. replace (k + Z.pos (Pos.of_succ_nat i)) with (k + 1 + Z.of_nat i) by lia.
    apply IH. lia.
Qed.

Lemma windowLines_has_line (data : string) (line before after : Z) :
  1 <= line <= 1 + countNewlines data -> 0 <= before -> 0 <= after ->
  In (lineText data line) (windowLines data line before after).
Proof.
  intros Hl Hb Ha. unfold windowLines, lineText.
  apply (in_map snd _ (line, nth (Z.to_nat (line - 1)) (splitLines data) EmptyString)).
  apply filter_In. split.
  - replace line with (1 + Z.of_nat (Z.to_nat (line - 1))) at 1 by lia.
    apply numbered_nth. pose proof (splitLines_length data). lia.
  - unfold inWindow. simpl. apply andb_true_intro. split; apply Z.leb_le; lia.
Qed.

(** The window as a slice of the lines: from line [line - before], or
    the first, to line [line + after], or the last. *)
Lemma numbered_window (line before after : Z) (ls : list string) :
  forall k,
    map snd (filter (inWindow line before after) (numbered k ls)) =
    let lo := Z.max k (line - before) in
    let hi := Z.min (k + Z.of_nat (List.length ls) - 1) (line + after) in
    firstn (Z.to_nat (hi - lo + 1)) (skipn (Z.to_nat (lo - k)) ls).
Proof.
  induction ls as [|l ls IH]; intros k; cbv zeta.
  - now rewrite skipn_nil, firstn_nil.
  - cbn [numbered filter]. unfold inWindow at 1. cbn [fst].
    specialize (IH (k + 1)). cbv zeta in IH.
    replace (k + 1 + Z.of_nat (List.length ls) - 1)
      with (k + Z.of_nat (List.length (l :: ls)) - 1) in IH
      by (simpl List.length; lia).
    destruct (Z.leb_spec (line - before) k) as [Hlo|Hlo];
      destruct (Z.leb_spec k (line + after)) as [Hhi|Hhi]; cbn [andb map].
    + rewrite IH.
      replace (Z.max k (line - before) - k) with 0 by lia.
      replace (Z.max (k + 1) (line - before) - (k + 1)) with 0 by lia.
      cbn [Z.to_nat skipn].
      remember (Z.min (k + Z.of_nat (List.length (l :: ls)) - 1) (line + after)) as hi.
      assert (k <= hi) by (simpl List.length in Heqhi; lia).
      replace (Z.to_nat (hi - Z.max k (line - before) + 1))
        with (S (Z.to_nat (hi - Z.max (k + 1) (line - before) + 1))) by lia.
      reflexivity.
    + rewrite IH.
      replace (Z.to_nat (Z.min (k + Z.of_nat (List.length (l :: ls)) - 1) (line + after)
                         - Z.max (k + 1) (line - before) + 1)) with 0%nat by lia.
      replace (Z.to_nat (Z.min (k + Z.of_nat (List.length (l :: ls)) - 1) (line + after)
                         - Z.max k (line - before) + 1)) with 0%nat by lia.
      reflexivity.
    + rewrite IH.
      replace (Z.max (k + 1) (line - before)) with (Z.max k (line - before)) by lia.
      replace (Z.to_nat (Z.max k (line - before) - k))
        with (S (Z.to_nat (Z.max k (line - before) - (k + 1)))) by lia.
      reflexivity.
    + rewrite IH.
      replace (Z.to_nat (Z.min (k + Z.of_nat (List.length (l :: ls)) - 1) (line + after)
                         - Z.max (k + 1) (line - before) + 1)) with 0%nat by lia.
      replace (Z.to_nat (Z.min (k + Z.of_nat (List.length (l :: ls)) - 1) (line + after)
                         - Z.max k (line - before) + 1)) with 0%nat by lia.
      reflexivity.
Qed.

Lemma windowLines_slice (data : string) (line before after : Z) :
  windowLines data line before after =
  let lo := Z.max 1 (line - before) in
  let hi := Z.min (1 + countNewlines data) (line + after) in
  firstn (Z.to_nat (hi - lo + 1)) (skipn (Z.to_nat (lo - 1)) (splitLines data)).
Proof.
  unfold windowLines. rewrite numbered_window. cbv zeta.
  rewrite <- splitLines_length.
  replace (1 + Z.of_nat (List.length (splitLines data)) - 1)
    with (Z.of_nat (List.length (splitLines data))) by lia.
  reflexivity.
Qed.

End Lines.

(** ** The progress channel *)

Lemma closes_app (a b : list event) : closes (a ++ b) = (closes a + closes b)%nat.
Proof. unfold closes. now rewrite filter_app, length_app. Qed.

Create HintDb quiet.

Lemma quiet_ret {A : Type} (a : A) : quiet (ret a).
Proof.
  intros w Hc. split; [exact Hc|]. exists []. now rewrite app_nil_r.
Qed.

Lemma quiet_panic {A : Type} (msg : string) : quiet (@panic A msg).
Proof.
  intros w Hc. split; [exact Hc|]. exists []. now rewrite app_nil_r.
Qed.

Lemma quiet_bind {A B : Type} (m : M A) (k : A -> M B) :
  quiet m -> (forall a, quiet (k a)) -> quiet (bind m k).
Proof.
  intros Hm Hk w Hc. unfold bind.
  destruct (Hm w Hc) as [Hc1 [evs1 [Ht1 Hn1]]].
  destruct (m w) as [[a|msg] w1]; cbn [snd] in *.
  - destruct (Hk a w1 Hc1) as [Hc2 [evs2 [Ht2 Hn2]]].
    split; [exact Hc2|]. exists (evs1 ++ evs2)%list.
    rewrite Ht2, Ht1, app_assoc, closes_app, Hn1, Hn2. now split.
  - split; [exact Hc1|]. now exists evs1.
Qed.

Lemma quiet_send (v : item) : quiet (send v).
Proof.
  intros w Hc. unfold send. rewrite Hc. cbn. split; [exact Hc|].
  now exists [Send v].
Qed.

(** A step that does nothing but record one call and change rows. *)
Lemma quiet_step {A : Type} (m : M A) :
  (forall w, exists a c r t tx,
      m w = (a, {| rows := t; txrows := tx; closed := closed w;
                   trace := trace w ++ [Call c r] |})) ->
  quiet m.
Proof.
  intros H w Hc. destruct (H w) as (a & c & r & t & tx & ->). cbn.
  split; [exact Hc|]. now exists [Call c r].
Qed.

#[local] Hint Resolve quiet_ret quiet_panic quiet_send : quiet.

Section QuietDatabase.

Variable env : Env.

Lemma quiet_dbExec (d : option sqlDB) (q : string) (args : list N) :
  quiet (dbExec env d q args).
Proof.
  destruct d as [d|]; [|apply quiet_panic].
  apply quiet_step. intros w. unfold dbExec, record, observe.
  destruct (fault env (CallExec OnDB q args)); [|destruct (serverExec env q args (rows w))];
    cbn; repeat eexists.
Qed.

Lemma quiet_txExec (tx : sqlTx) (q : string) (args : list N) :
  quiet (txExec env tx q args).
Proof.
  apply quiet_step. intros w. unfold txExec, record, observe.
  destruct (txrows w) as [t0|];
    [destruct (fault env (CallExec OnTx q args));
     [|destruct (serverExec env q args t0)]|];
    cbn; repeat eexists.
Qed.

Lemma quiet_Begin (d : option sqlDB) : quiet (Begin env d).
Proof.
  destruct d as [d|]; [|apply quiet_panic].
  apply quiet_step. intros w. unfold Begin, record, observe.
  destruct (fault env CallBegin); cbn; repeat eexists.
Qed.

Lemma quiet_Commit (tx : sqlTx) : quiet (Commit env tx).
Proof.
  apply quiet_step. intros w. unfold Commit, record, observe.
  destruct (txrows w); [destruct (fault env CallCommit)|]; cbn; repeat eexists.
Qed.

Lemma quiet_Rollback (tx : sqlTx) : quiet (Rollback env tx).
Proof.
  apply quiet_step. intros w. unfold Rollback, record, observe.
  destruct (txrows w); cbn; repeat eexists.
Qed.

End QuietDatabase.

(** The execution routine is quiet on every handle whose [Exec] is. *)
Lemma quiet_internalMigrate {H : Type} (E : dbExecer H) (tx : H) (f : file.File) :
  (forall q args, quiet (Exec tx q args)) -> quiet (internalMigrate tx f).
Proof.
  intros HE. unfold internalMigrate.
  apply quiet_bind; [apply HE|].
  intros [[pqErr| |s|s]|]; auto with quiet.
  - destruct (strconv.Atoi (pq.Position pqErr)) as [offset|]; auto with quiet.
    destruct (0 <=? offset); auto with quiet.
    destruct (file.LineColumnFromOffset (file.Content f) (offset - 1)).
    auto with quiet.
  - destruct (direction.eqb (file.Direction f) direction.Up).
    + apply quiet_bind; [apply HE|]. intros [e|]; auto with quiet.
    + destruct (direction.eqb (file.Direction f) direction.Down); auto with quiet.
      apply quiet_bind; [apply HE|]. intros [e|]; auto with quiet.
Qed.

(** C3. Whatever happens in a call of Migrate on an open channel (the read
    fails, Begin fails, a statement fails, Rollback or Commit fails, the
    routine panics, or all goes well), the first thing the call does is send
    the file, as it was passed in, on the channel, and the last thing is
    close the channel; it closes the channel once. *)
Lemma Migrate_run_shape (env : Env) (driver : Driver) (f : file.File) (w : World) :
  closed w = false ->
  exists r rest w',
    Migrate env driver f w = (r, w')
    /\ trace w' = (trace w ++ Send (ItemFile f) :: rest ++ [Closed])%list
    /\ closes rest = 0%nat
    /\ closed w' = true.
Proof.
  intros Hc. unfold Migrate, defer.
  match goal with
  | |- context [bind (send (ItemFile f)) ?k] => set (body := k)
  end.
  assert (Hbody : quiet (body tt)).
  { subst body. cbv beta. unfold file.ReadContent.
    destruct (readFile env f) as [err|c]; [apply quiet_send|].
    destruct (negb (canUseTransaction (file.Content (file.setContent f c)))).
    - apply quiet_bind.
      + apply quiet_internalMigrate. intros q args. apply quiet_dbExec.
      + intros [e|]; auto with quiet.
    - apply quiet_bind; [apply quiet_Begin|].
      intros [e|tx]; [apply quiet_send|].
      apply quiet_bind.
      + apply quiet_internalMigrate. intros q args. apply quiet_txExec.
      + intros [e|].
        * apply quiet_bind; [apply quiet_send|]. intros _.
          apply quiet_bind; [apply quiet_Rollback|].
          intros [e2|]; auto with quiet.
        * apply quiet_bind; [apply quiet_Commit|].
          intros [e2|]; auto with quiet. }
  unfold bind, send. rewrite Hc.
  destruct (Hbody (observe (Send (ItemFile f)) w) Hc) as [Hc1 [evs [Ht Hn]]].
  destruct (body tt (observe (Send (ItemFile f)) w)) as [r w1]; cbn [snd] in *.
  unfold closePipe. rewrite Hc1.
  exists r, evs. eexists. split; [reflexivity|]. cbn [trace closed].
  rewrite Ht. cbn [observe trace].
  rewrite <- !app_assoc. cbn [app]. auto.
Qed.

(** C3. Whatever happens in a call of Migrate on an open channel (the read
    fails, Begin fails, a statement fails, Rollback or Commit fails, the
    routine panics, or all goes well), the first thing the call does is send
    the file, as it was passed in, on the channel, and the last thing is
    close the channel; it closes the channel once. *)
Theorem Migrate_closes_once (env : Env) (driver : Driver) (f : file.File) (w : World) :
  closed w = false ->
  exists rest,
    trace (snd (Migrate env driver f w))
    = (trace w ++ Send (ItemFile f) :: rest ++ [Closed])%list
    /\ closes rest = 0%nat
    /\ closed (snd (Migrate env driver f w)) = true.
Proof.
  intros Hc.
  destruct (Migrate_run_shape env driver f w Hc) as (r & rest & w' & -> & Ht & Hn & Hcl).
  exists rest. auto.
Qed.

Lemma Migrate_closes_once_witness :
  let env := {| readFile := fun _ => inr ("SELECT 1;" ++ nl);
                runScript := fun _ t => (t, None);
                fault := fun _ => None |} in
  let f := {| file.Version := 3; file.Direction := direction.Up; file.Content := "" |} in
  let w := {| rows := []; txrows := None; closed := false; trace := [] |} in
  exists rest,
    trace (snd (Migrate env {| db := Some theDB |} f w))
    = ([] ++ Send (ItemFile f) :: rest ++ [Closed])%list
    /\ closes rest = 0%nat
    /\ closed (snd (Migrate env {| db := Some theDB |} f w)) = true.
Proof.
  intros env f w. apply (Migrate_closes_once env {| db := Some theDB |} f w).
  reflexivity.
Defined.

(** ** Transactions *)

Lemma canUseTransaction_marker (c : string) :
  canUseTransaction c = negb (HasPrefix c noTransactionMarker).
Proof. reflexivity. Qed.

(** With the marker: the text goes to the connection, and nothing of the
    run touches a transaction. *)
Lemma Migrate_without_transaction (env : Env) (driver : Driver) (f : file.File)
      (c : string) (w : World) :
  closed w = false -> readFile env f = inr c -> db driver <> None ->
  HasPrefix c noTransactionMarker = true ->
  exists r rest,
    trace (snd (Migrate env driver f w))
    = (trace w ++ Send (ItemFile f) :: Call (CallExec OnDB c []) r :: rest)%list
    /\ existsb onTransaction rest = false.
Proof.
  intros Hc Hr Hdb Hm.
  assert (Hn : negb (canUseTransaction c) = true)
    by (rewrite canUseTransaction_marker, Hm; reflexivity).
  destruct driver as [[d|]]; [clear Hdb | now elim Hdb].
  run_driver; flat_trace; try discriminate;
    do 2 eexists; (split; [reflexivity | reflexivity]).
Qed.

(** Without the marker: Begin comes first; when it succeeds the text goes
    to the transaction; and when no statement fails, Commit follows the
    statements and there is no Rollback. *)
Lemma Migrate_with_transaction (env : Env) (driver : Driver) (f : file.File)
      (c : string) (w : World) :
  closed w = false -> readFile env f = inr c -> db driver <> None ->
  HasPrefix c noTransactionMarker = false ->
  exists r rest,
    trace (snd (Migrate env driver f w))
    = (trace w ++ Send (ItemFile f) :: Call CallBegin r :: rest)%list
    /\ (r = None ->
        exists r1 rest1,
          rest = Call (CallExec OnTx c []) r1 :: rest1
          /\ (existsb failedExec rest = false ->
              exists execs rc tl,
                rest1 = (execs ++ Call CallCommit rc :: tl)%list
                /\ forallb isExec execs = true
                /\ existsb isRollback rest = false)).
Proof.
  intros Hc Hr Hdb Hm.
  assert (Hn : negb (canUseTransaction c) = false)
    by (rewrite canUseTransaction_marker, Hm; reflexivity).
  destruct driver as [[d|]]; [clear Hdb | now elim Hdb].
  run_driver; flat_trace; try discriminate;
    do 2 eexists; (split; [reflexivity|]);
    intros Hb; try discriminate Hb;
    do 2 eexists; (split; [reflexivity|]);
    intros Hf; try discriminate Hf;
    ((exists []) + (eexists [_])); do 2 eexists;
    (split; [reflexivity|]); split; reflexivity.
Qed.

(** C1. A migration whose text begins with the marker line is executed on
    the connection and the run makes no call on a transaction (no Begin);
    a migration whose text does not begin with it is executed between
    Begin and, when every statement succeeded, Commit. *)
Theorem Migrate_transaction_choice (env : Env) (driver : Driver) (f : file.File)
        (c : string) (w : World) :
  closed w = false -> readFile env f = inr c -> db driver <> None ->
  (HasPrefix c noTransactionMarker = true ->
   exists r rest,
     trace (snd (Migrate env driver f w))
     = (trace w ++ Send (ItemFile f) :: Call (CallExec OnDB c []) r :: rest)%list
     /\ existsb onTransaction rest = false)
  /\
  (HasPrefix c noTransactionMarker = false ->
   exists r rest,
     trace (snd (Migrate env driver f w))
     = (trace w ++ Send (ItemFile f) :: Call CallBegin r :: rest)%list
     /\ (r = None ->
         exists r1 rest1,
           rest = Call (CallExec OnTx c []) r1 :: rest1
           /\ (existsb failedExec rest = false ->
               exists execs rc tl,
                 rest1 = (execs ++ Call CallCommit rc :: tl)%list
                 /\ forallb isExec execs = true
                 /\ existsb isRollback rest = false))).
Proof.
  intros Hc Hr Hdb. split; intros Hm.
  - now apply Migrate_without_transaction.
  - now apply Migrate_with_transaction.
Qed.

Lemma Migrate_transaction_choice_witness :
  (exists r rest,
      trace (snd (Migrate (Examples.calm Examples.markedText) Examples.live
                          Examples.up3 (Examples.start [1%N; 2%N])))
      = ([] ++ Send (ItemFile Examples.up3)
            :: Call (CallExec OnDB Examples.markedText []) r :: rest)%list
      /\ existsb onTransaction rest = false)
  /\
  (exists r rest,
      trace (snd (Migrate (Examples.calm Examples.plainText) Examples.live
                          Examples.up3 (Examples.start [1%N; 2%N])))
      = ([] ++ Send (ItemFile Examples.up3) :: Call CallBegin r :: rest)%list
      /\ (r = None ->
          exists r1 rest1,
            rest = Call (CallExec OnTx Examples.plainText []) r1 :: rest1
            /\ (existsb failedExec rest = false ->
                exists execs rc tl,
                  rest1 = (execs ++ Call CallCommit rc :: tl)%list
                  /\ forallb isExec execs = true
                  /\ existsb isRollback rest = false))).
Proof.
  split.
  - apply (Migrate_transaction_choice (Examples.calm Examples.markedText) Examples.live
             Examples.up3 Examples.markedText (Examples.start [1%N; 2%N]));
      [reflexivity | reflexivity | discriminate | reflexivity].
  - apply (Migrate_transaction_choice (Examples.calm Examples.plainText) Examples.live
             Examples.up3 Examples.plainText (Examples.start [1%N; 2%N]));
      [reflexivity | reflexivity | discriminate | reflexivity].
Defined.

(** C2. In the transactional path a failing statement leaves the committed
    rows of the version table as they were before the call: the run has no
    Commit, and, when Migrate returns, it has called Rollback and no
    transaction stays open. *)
Theorem Migrate_failure_keeps_versions (env : Env) (driver : Driver) (f : file.File)
        (c : string) (w : World) :
  closed w = false -> readFile env f = inr c ->
  HasPrefix c noTransactionMarker = false ->
  exists evs,
    trace (snd (Migrate env driver f w)) = (trace w ++ evs)%list
    /\ (existsb failedExec evs = true ->
        rows (snd (Migrate env driver f w)) = rows w
        /\ existsb isCommit evs = false
        /\ (fst (Migrate env driver f w) = Done tt ->
            existsb isRollback evs = true
            /\ txrows (snd (Migrate env driver f w)) = None)).
Proof.
  intros Hc Hr Hm.
  assert (Hn : negb (canUseTransaction c) = false)
    by (rewrite canUseTransaction_marker, Hm; reflexivity).
  run_driver; flat_trace; try discriminate;
    eexists; (split; [reflexivity|]);
    intros Hf; try discriminate Hf;
    (split; [reflexivity|]); (split; [reflexivity|]);
    intros Hd; try discriminate Hd; split; reflexivity.
Qed.

Lemma Migrate_failure_keeps_versions_witness :
  exists evs,
    trace (snd (Migrate (Examples.refusing Examples.plainText "11") Examples.live
                        Examples.up3 (Examples.start [1%N; 2%N])))
    = ([] ++ evs)%list
    /\ existsb failedExec evs = true
    /\ rows (snd (Migrate (Examples.refusing Examples.plainText "11") Examples.live
                          Examples.up3 (Examples.start [1%N; 2%N]))) = [1%N; 2%N]
    /\ txrows (snd (Migrate (Examples.refusing Examples.plainText "11") Examples.live
                            Examples.up3 (Examples.start [1%N; 2%N]))) = None.
Proof.
  destruct (Migrate_failure_keeps_versions
              (Examples.refusing Examples.plainText "11") Examples.live Examples.up3
              Examples.plainText (Examples.start [1%N; 2%N])
              eq_refl eq_refl eq_refl) as [evs [Ht Hk]].
  exists evs. split; [exact Ht|].
  assert (Hf : existsb failedExec evs = true).
  { vm_compute in Ht. rewrite <- Ht. reflexivity. }
  destruct (Hk Hf) as [Hrows [_ Hdone]].
  split; [exact Hf|]. split; [exact Hrows|].
  apply Hdone. reflexivity.
Defined.

(** ** Failure inside the transaction *)

Lemma bind_assoc {A B C : Type} (m : M A) (k1 : A -> M B) (k2 : B -> M C) (w : World) :
  bind m (fun a => bind (k1 a) k2) w = bind (bind m k1) k2 w.
Proof.
  unfold bind. destruct (m w) as [[a|msg] w1]; reflexivity.
Qed.

(** What is known of the world once the file is out and Begin is back. *)
Lemma begun_world (env : Env) (driver : Driver) (f : file.File) (w w1 : World) (tx : sqlTx) :
  (send (ItemFile f) ;;; Begin env (db driver)) w = (Done (inr tx), w1) ->
  closed w = false /\ closed w1 = false /\ rows w1 = rows w
  /\ txrows w1 = Some (rows w).
Proof.
  unfold bind, send, Begin, record, observe.
  destruct (closed w) eqn:Hc; [discriminate|].
  destruct (db driver); [|discriminate].
  destruct (fault env CallBegin); [discriminate|].
  intros H. inversion H; subst. cbn. auto.
Qed.

(** The routine, run on a transaction, touches neither the channel nor the
    committed rows, and leaves the transaction open. *)
Lemma internalMigrate_tx_keeps (env : Env) (tx : sqlTx) (f : file.File) (w : World) :
  closed (snd (internalMigrate (E := dbExecer_Tx env) tx f w)) = closed w
  /\ rows (snd (internalMigrate (E := dbExecer_Tx env) tx f w)) = rows w
  /\ (txrows w <> None -> txrows (snd (internalMigrate (E := dbExecer_Tx env) tx f w)) <> None).
Proof.
  run_driver; repeat split; try reflexivity; try discriminate; auto.
Qed.

Lemma Migrate_tx_failure (env : Env) (driver : Driver) (f : file.File) (c : string)
      (w w1 w2 : World) (tx : sqlTx) (e : error) :
  readFile env f = inr c ->
  HasPrefix c noTransactionMarker = false ->
  (send (ItemFile f) ;;; Begin env (db driver)) w = (Done (inr tx), w1) ->
  internalMigrate (E := dbExecer_Tx env) tx (file.setContent f c) w1 = (Done (Some e), w2) ->
  exists w3,
    Migrate env driver f w = (Done tt, w3)
    /\ trace w3
       = (trace w2
            ++ Send (ItemError e)
            :: Call CallRollback (fault env CallRollback)
            :: match fault env CallRollback with
               | Some e2 => [Send (ItemError e2)]
               | None => []
               end
            ++ [Closed])%list
    /\ rows w3 = rows w
    /\ txrows w3 = None.
Proof.
  intros Hr Hm Hb Hi.
  destruct (begun_world env driver f w w1 tx Hb) as (Hc & Hc1 & Hrows1 & Htx1).
  destruct (internalMigrate_tx_keeps env tx (file.setContent f c) w1) as (Hc2 & Hrows2 & Htx2).
  rewrite Hi in Hc2, Hrows2, Htx2. cbn [snd] in Hc2, Hrows2, Htx2.
  rewrite Hc1 in Hc2. rewrite Hrows1 in Hrows2.
  assert (Ht : exists t, txrows w2 = Some t).
  { destruct (txrows w2) as [t|]; [now exists t|].
    exfalso. apply Htx2; [rewrite Htx1; discriminate | reflexivity]. }
  destruct Ht as [t Ht].
  unfold Migrate, defer, file.ReadContent. rewrite Hr.
  cbv beta iota. change (file.Content (file.setContent f c)) with c.
  rewrite canUseTransaction_marker, Hm. cbn [negb].
  rewrite bind_assoc. unfold bind at 1. rewrite Hb.
  unfold bind at 1. rewrite Hi.
  unfold bind, send, Rollback, closePipe, record, observe.
  rewrite Hc2, Ht. cbn [closed].
  destruct (fault env CallRollback) as [e2|]; cbn [closed];
    eexists; (split; [reflexivity|]); cbn [trace rows txrows];
    rewrite <- ?app_assoc; auto.
Qed.

(** X18. In the transactional path, when the execution routine comes back
    with an error (it did not panic), Migrate sends that error on the
    channel, then calls Rollback, and when Rollback fails sends its error
    as well, after the first one; then the channel is closed. *)
Theorem Migrate_publishes_both_errors (env : Env) (driver : Driver) (f : file.File)
        (c : string) (w w1 w2 : World) (tx : sqlTx) (e : error) :
  readFile env f = inr c ->
  HasPrefix c noTransactionMarker = false ->
  (send (ItemFile f) ;;; Begin env (db driver)) w = (Done (inr tx), w1) ->
  internalMigrate (E := dbExecer_Tx env) tx (file.setContent f c) w1 = (Done (Some e), w2) ->
  exists w3,
    Migrate env driver f w = (Done tt, w3)
    /\ trace w3
       = (trace w2
            ++ Send (ItemError e)
            :: Call CallRollback (fault env CallRollback)
            :: match fault env CallRollback with
               | Some e2 => [Send (ItemError e2)]
               | None => []
               end
            ++ [Closed])%list.
Proof.
  intros Hr Hm Hb Hi.
  destruct (Migrate_tx_failure env driver f c w w1 w2 tx e Hr Hm Hb Hi) as (w3 & Hrun & Ht & _).
  now exists w3.
Qed.

Lemma Migrate_publishes_both_errors_witness :
  exists w3,
    Migrate (Examples.stuck Examples.plainText "11") Examples.live Examples.up3
            (Examples.start [1%N; 2%N]) = (Done tt, w3)
    /\ trace w3
       = [Send (ItemFile Examples.up3);
          Call CallBegin None;
          Call (CallExec OnTx Examples.plainText [])
               (Some (PqError (Examples.syntaxError "11")));
          Send (ItemError
                  (errorString
                     ("ERROR 42601: syntax error at or near BAD in line 2, column 1:"
                        ++ nl ++ nl ++ "SELECT 1;" ++ nl ++ "BAD SQL;" ++ nl)));
          Call CallRollback (Some (otherError "driver: bad connection"));
          Send (ItemError (otherError "driver: bad connection"));
          Closed].
Proof.
  destruct (Migrate_publishes_both_errors
              (Examples.stuck Examples.plainText "11") Examples.live Examples.up3
              Examples.plainText (Examples.start [1%N; 2%N]) _ _ theTx _
              eq_refl eq_refl eq_refl eq_refl) as (w3 & Hrun & Ht).
  exists w3. split; [exact Hrun|]. rewrite Ht. vm_compute. reflexivity.
Defined.

(** C8 fails on the code.  In the transactional path, when Exec of the
    text fails with an error that is not a *pq.Error (here the connection
    is lost), a statement of the migration has failed, and yet Migrate
    sends no error on the channel and does not call Rollback: the routine
    panics at its type assertion (the defect of C9), Migrate panics with
    it, the transaction stays open and only the deferred close runs. *)
Theorem Migrate_drops_other_error :
  let env := Examples.lost Examples.plainText in
  let run := Migrate env Examples.live Examples.up3 (Examples.start [1%N]) in
  canUseTransaction Examples.plainText = true
  /\ fst run = Panic "interface conversion: error is not *pq.Error"
  /\ trace (snd run)
     = [Send (ItemFile Examples.up3);
        Call CallBegin None;
        Call (CallExec OnTx Examples.plainText [])
             (Some (otherError "driver: bad connection"));
        Closed]
  /\ existsb failedExec (trace (snd run)) = true
  /\ existsb isErrorSend (trace (snd run)) = false
  /\ existsb isRollback (trace (snd run)) = false
  /\ txrows (snd run) = Some [1%N].
Proof.
  repeat split; vm_compute; reflexivity.
Qed.

(** ** The version row *)

Lemma serverExec_insert (env : Env) (v : N) (t : list N) :
  serverExec env insertStmt [v] t =
  if hasRow v t then (t, Some uniqueViolation) else ((t ++ [v])%list, None).
Proof. reflexivity. Qed.

Lemma serverExec_delete (env : Env) (v : N) (t : list N) :
  serverExec env deleteStmt [v] t = (filter (fun x => negb (N.eqb x v)) t, None).
Proof. reflexivity. Qed.

Lemma delete_absent (v : N) (t : list N) :
  hasRow v t = false -> filter (fun x => negb (N.eqb x v)) t = t.
Proof.
  unfold hasRow. induction t as [|x t IH]; cbn [existsb filter]; intros H; [reflexivity|].
  apply orb_false_elim in H. destruct H as [Hx Ht].
  rewrite N.eqb_sym, Hx. cbn [negb]. now rewrite IH.
Qed.

(** Once the text has run without error, the routine is its one version
    statement. *)
Lemma internalMigrate_after_script {H : Type} (E : dbExecer H) (tx : H)
      (f : file.File) (w w1 : World) :
  Exec tx (file.Content f) [] w = (Done None, w1) ->
  internalMigrate tx f w =
  match file.Direction f with
  | direction.Up => Exec tx insertStmt [file.Version f] w1
  | direction.Down => Exec tx deleteStmt [file.Version f] w1
  | direction.Neither => (Done None, w1)
  end.
Proof.
  intros He. unfold internalMigrate, bind at 1. rewrite He.
  destruct (file.Direction f); cbn [direction.eqb]; unfold bind, ret;
    try reflexivity;
    match goal with |- context [Exec tx ?q ?a w1] =>
      destruct (Exec tx q a w1) as [[[e|]|msg] w2]; reflexivity
    end.
Qed.

Lemma execOn_insert (env : Env) (h : handle) (v : N) (w : World) (t : list N) :
  table h w = Some t ->
  exists r w2,
    execOn env h insertStmt [v] w = (Done r, w2)
    /\ trace w2 = (trace w ++ [Call (CallExec h insertStmt [v]) r])%list
    /\ (r = None -> table h w2 = Some (t ++ [v])%list /\ hasRow v t = false)
    /\ (r <> None -> table h w2 = Some t).
Proof.
  intros Ht.
  destruct h; cbn [table] in Ht; unfold execOn, dbExec, txExec, record, observe;
    [injection Ht as Ht | rewrite Ht];
    (destruct (fault env (CallExec _ insertStmt [v])) as [e|];
     [| rewrite serverExec_insert;
        match goal with |- context [hasRow v ?t0] => destruct (hasRow v t0) eqn:Hin end]);
    do 2 eexists; (split; [reflexivity|]); cbn [trace table rows txrows];
    subst; repeat split; congruence.
Qed.

Lemma execOn_delete (env : Env) (h : handle) (v : N) (w : World) (t : list N) :
  table h w = Some t ->
  exists r w2,
    execOn env h deleteStmt [v] w = (Done r, w2)
    /\ trace w2 = (trace w ++ [Call (CallExec h deleteStmt [v]) r])%list
    /\ (r = None -> table h w2 = Some (filter (fun x => negb (N.eqb x v)) t))
    /\ (r <> None -> table h w2 = Some t)
    /\ (fault env (CallExec h deleteStmt [v]) = None -> r = None)
    /\ (hasRow v t = false -> table h w2 = Some t).
Proof.
  intros Ht.
  destruct h; cbn [table] in Ht; unfold execOn, dbExec, txExec, record, observe;
    [injection Ht as Ht | rewrite Ht];
    (destruct (fault env (CallExec _ deleteStmt [v])) as [e|];
     [| rewrite serverExec_delete]);
    do 2 eexists; (split; [reflexivity|]); cbn [trace table rows txrows];
    subst; repeat split; try congruence;
    intros Hin; now rewrite delete_absent.
Qed.

Lemma internalMigrateOn_after_script (env : Env) (h : handle) (f : file.File)
      (w w1 : World) :
  execOn env h (file.Content f) [] w = (Done None, w1) ->
  internalMigrateOn env h f w =
  match file.Direction f with
  | direction.Up => execOn env h insertStmt [file.Version f] w1
  | direction.Down => execOn env h deleteStmt [file.Version f] w1
  | direction.Neither => (Done None, w1)
  end.
Proof.
  destruct h; intros He.
  - exact (internalMigrate_after_script (dbExecer_DB env) (Some theDB) f w w1 He).
  - exact (internalMigrate_after_script (dbExecer_Tx env) theTx f w w1 He).
Qed.

(** C7. After the text of the migration has run without error on a handle
    whose version table is [t]: for Up the routine runs the INSERT of the
    file's version and nothing else, and returns that statement's error;
    when there is none, the table is [t] with one more row, the file's
    version, which was not in it; otherwise the table is [t].  For Down it
    runs the DELETE and returns its error; without one the rows of that
    version are gone, and where there was no such row the table is [t] and
    the statement itself is no error.  In the transactional path an error
    of either statement is sent on the channel and followed by Rollback,
    and the committed rows stay as they were. *)
Theorem internalMigrate_version_row (env : Env) (h : handle) (f : file.File)
        (w w1 : World) (t : list N) :
  execOn env h (file.Content f) [] w = (Done None, w1) ->
  table h w1 = Some t ->
  (file.Direction f = direction.Up ->
   internalMigrateOn env h f w = execOn env h insertStmt [file.Version f] w1
   /\ exists r w2,
       internalMigrateOn env h f w = (Done r, w2)
       /\ trace w2 = (trace w1 ++ [Call (CallExec h insertStmt [file.Version f]) r])%list
       /\ (r = None ->
           table h w2 = Some (t ++ [file.Version f])%list
           /\ hasRow (file.Version f) t = false)
       /\ (r <> None -> table h w2 = Some t))
  /\
  (file.Direction f = direction.Down ->
   internalMigrateOn env h f w = execOn env h deleteStmt [file.Version f] w1
   /\ exists r w2,
       internalMigrateOn env h f w = (Done r, w2)
       /\ trace w2 = (trace w1 ++ [Call (CallExec h deleteStmt [file.Version f]) r])%list
       /\ (r = None ->
           table h w2 = Some (filter (fun x => negb (N.eqb x (file.Version f))) t))
       /\ (r <> None -> table h w2 = Some t)
       /\ (fault env (CallExec h deleteStmt [file.Version f]) = None -> r = None)
       /\ (hasRow (file.Version f) t = false -> table h w2 = Some t))
  /\
  (h = OnTx ->
   forall (driver : Driver) (g : file.File) (w0 w2 : World) (e : error),
     readFile env g = inr (file.Content f) ->
     file.setContent g (file.Content f) = f ->
     HasPrefix (file.Content f) noTransactionMarker = false ->
     (send (ItemFile g) ;;; Begin env (db driver)) w0 = (Done (inr theTx), w) ->
     internalMigrateOn env OnTx f w = (Done (Some e), w2) ->
     exists w3,
       Migrate env driver g w0 = (Done tt, w3)
       /\ rows w3 = rows w0
       /\ exists tl,
           trace w3 = (trace w2 ++ Send (ItemError e)
                         :: Call CallRollback (fault env CallRollback) :: tl)%list).
Proof.
  intros He Ht.
  pose proof (internalMigrateOn_after_script env h f w w1 He) as Hrun.
  split; [|split].
  - intros Hd. rewrite Hd in Hrun. split; [exact Hrun|].
    rewrite Hrun. apply execOn_insert. exact Ht.
  - intros Hd. rewrite Hd in Hrun. split; [exact Hrun|].
    rewrite Hrun. apply execOn_delete. exact Ht.
  - intros _ driver g w0 w2 e Hr Hg Hm Hb Hi.
    cbn [internalMigrateOn] in Hi. rewrite <- Hg in Hi at 1.
    destruct (Migrate_tx_failure env driver g (file.Content f) w0 w w2 theTx e
                Hr Hm Hb Hi) as (w3 & Hmig & Htr & Hrows & _).
    exists w3. split; [exact Hmig|]. split; [exact Hrows|].
    eexists. exact Htr.
Qed.

Lemma internalMigrate_version_row_witness :
  let env := Examples.calm Examples.plainText in
  let f := file.setContent Examples.up3 Examples.plainText in
  let w := {| rows := [1%N; 2%N]; txrows := Some [1%N; 2%N];
              closed := false; trace := [] |} in
  exists r w2,
    internalMigrateOn env OnTx f w = (Done r, w2)
    /\ (r = None ->
        table OnTx w2 = Some [1%N; 2%N; 3%N] /\ hasRow 3%N [1%N; 2%N] = false).
Proof.
  intros env f w.
  destruct (internalMigrate_version_row
              env OnTx f w (snd (execOn env OnTx (file.Content f) [] w))
              [1%N; 2%N] eq_refl eq_refl) as [Hup _].
  destruct (Hup eq_refl) as [_ (r & w2 & Hrun & _ & Hok & _)].
  exists r, w2. split; [exact Hrun | exact Hok].
Defined.

(** ** The error of a failed migration *)

(** C6. When the server refuses the text with a pq.Error whose position
    parses to a number that is not negative, the routine returns the error
    whose text is severity, code and message, " in line L, column C:", an
    empty line, and the lines L - 5 to L + 5 of the text, as far as the
    text has them, joined by newlines; (L, C) being the line and column of
    the byte before that position.  When the position does not parse or is
    negative, the error's text is severity, code and message only. *)
Theorem internalMigrate_error_message {H : Type} (E : dbExecer H) (tx : H)
        (f : file.File) (w w1 : World) (p : pq.Error) :
  Exec tx (file.Content f) [] w = (Done (Some (PqError p)), w1) ->
  (forall offset,
      strconv.Atoi (pq.Position p) = Some offset -> 0 <= offset ->
      let line := fst (file.LineColumnFromOffset (file.Content f) (offset - 1)) in
      let column := snd (file.LineColumnFromOffset (file.Content f) (offset - 1)) in
      let lo := Z.max 1 (line - 5) in
      let hi := Z.min (1 + file.countNewlines (file.Content f)) (line + 5) in
      let context :=
        join nl (firstn (Z.to_nat (hi - lo + 1))
                        (skipn (Z.to_nat (lo - 1)) (file.splitLines (file.Content f)))) in
      internalMigrate tx f w =
      (Done (Some (errorString
                     (pq.Severity p ++ " " ++ pq.Code p ++ ": " ++ pq.Message p
                        ++ " in line " ++ strconv.Itoa line
                        ++ ", column " ++ strconv.Itoa column
                        ++ ":" ++ nl ++ nl ++ context))), w1))
  /\
  ((strconv.Atoi (pq.Position p) = None
    \/ exists offset, strconv.Atoi (pq.Position p) = Some offset /\ offset < 0) ->
   internalMigrate tx f w =
   (Done (Some (errorString
                  (pq.Severity p ++ " " ++ pq.Code p ++ ": " ++ pq.Message p))), w1)).
Proof.
  intros He. split.
  - intros offset Ha Hoff. cbv zeta.
    unfold internalMigrate, bind. rewrite He, Ha.
    destruct (Z.leb_spec 0 offset) as [_|Hneg]; [|lia].
    destruct (file.LineColumnFromOffset (file.Content f) (offset - 1)) as [line column].
    cbn [fst snd]. unfold ret, positionMessage, file.LinesBeforeAndAfter.
    rewrite windowLines_slice. reflexivity.
  - intros Hno. unfold internalMigrate, bind. rewrite He.
    destruct Hno as [Hnone | [offset [Ha Hneg]]].
    + rewrite Hnone. reflexivity.
    + rewrite Ha. destruct (Z.leb_spec 0 offset) as [Hpos|_]; [lia|]. reflexivity.
Qed.

Lemma internalMigrate_error_message_witness :
  let env := Examples.refusing Examples.plainText "11" in
  let f := file.setContent Examples.up3 Examples.plainText in
  let w := {| rows := []; txrows := Some []; closed := false; trace := [] |} in
  fst (internalMigrate (E := dbExecer_Tx env) theTx f w)
  = Done (Some (errorString
                  ("ERROR 42601: syntax error at or near BAD in line 2, column 1:"
                     ++ nl ++ nl ++ "SELECT 1;" ++ nl ++ "BAD SQL;" ++ nl))).
Proof.
  intros env f w.
  destruct (internalMigrate_error_message
              (dbExecer_Tx env) theTx f w
              (snd (txExec env theTx (file.Content f) [] w))
              (Examples.syntaxError "11") eq_refl) as [Hpos _].
  rewrite (Hpos 11 eq_refl ltac:(lia)). vm_compute. reflexivity.
Defined.

(** C5 as it is worded fails on the spec's own example: for the
    text "SELECT 1;\nBAD SQL;\n" and the reported position 10, the byte at
    0-based offset 10 is on line 2, while the message the routine returns
    has line 1, column 10. *)
Lemma reported_offset_is_not_zero_based :
  let env := Examples.refusing Examples.plainText "10" in
  let f := file.setContent Examples.up3 Examples.plainText in
  let w := {| rows := []; txrows := Some []; closed := false; trace := [] |} in
  fst (internalMigrate (E := dbExecer_Tx env) theTx f w)
  = Done (Some (errorString
                  ("ERROR 42601: syntax error at or near BAD in line 1, column 10:"
                     ++ nl ++ nl ++ "SELECT 1;" ++ nl ++ "BAD SQL;" ++ nl)))
  /\ file.LineColumnFromOffset Examples.plainText 10 = (2, 1)
  /\ fst (internalMigrate (E := dbExecer_Tx env) theTx f w)
     <> Done (Some (errorString
                      ("ERROR 42601: syntax error at or near BAD in line 2, column 1:"
                         ++ nl ++ nl ++ "SELECT 1;" ++ nl ++ "BAD SQL;" ++ nl))).
Proof.
  intros env f w. split; [|split].
  - vm_compute. reflexivity.
  - vm_compute. reflexivity.
  - vm_compute. discriminate.
Qed.

(** C5 (amended). The position a pq.Error reports counts from 1: when it is
    one more than the length of [pre], the text being [pre ++ rest], the
    message has the line and column of the byte at 0-based offset
    [length pre]: the line is one more than the number of newline bytes
    in [pre], the column one more than the number of bytes of [pre] after
    its last newline.  The text of that line is in the context window.
    For "SELECT 1;\nBAD SQL;\n" and position 11 this is line 2, column 1,
    with the text of line 2 in the context. *)
Theorem internalMigrate_reported_position {H : Type} (E : dbExecer H) (tx : H)
        (f : file.File) (w w1 : World) (p : pq.Error) (pre rest : string) :
  Exec tx (file.Content f) [] w = (Done (Some (PqError p)), w1) ->
  file.Content f = pre ++ rest ->
  strconv.Atoi (pq.Position p) = Some (1 + Z.of_nat (String.length pre)) ->
  let line := 1 + file.countNewlines pre in
  let column := 1 + Z.of_nat (String.length (lastLine pre)) in
  internalMigrate tx f w =
  (Done (Some (errorString
                 (positionMessage p line column
                    (file.LinesBeforeAndAfter (file.Content f) line 5 5 true)))), w1)
  /\ In (lineText (file.Content f) line) (file.windowLines (file.Content f) line 5 5)
  /\ (let env := Examples.refusing Examples.plainText "11" in
      let g := file.setContent Examples.up3 Examples.plainText in
      let w0 := {| rows := []; txrows := Some []; closed := false; trace := [] |} in
      exists context,
        fst (internalMigrate (E := dbExecer_Tx env) theTx g w0)
        = Done (Some (errorString
                        ("ERROR 42601: syntax error at or near BAD in line 2, column 1:"
                           ++ nl ++ nl ++ context)))
        /\ lineText Examples.plainText 2 = "BAD SQL;"
        /\ contains "BAD SQL;" context = true).
Proof.
  destruct f as [version dir content]. cbn [file.Content].
  intros He Hc Ha. subst content. cbv zeta. split; [|split].
  - unfold internalMigrate, bind. cbn [file.Content]. rewrite He, Ha.
    destruct (Z.leb_spec 0 (1 + Z.of_nat (String.length pre))) as [_|Hneg]; [|lia].
    replace (1 + Z.of_nat (String.length pre) - 1) with (Z.of_nat (String.length pre)) by lia.
    rewrite LineColumnFromOffset_split. reflexivity.
  - apply windowLines_has_line; try lia.
    rewrite countNewlines_app.
    pose proof (countNewlines_nonneg pre). pose proof (countNewlines_nonneg rest). lia.
  - eexists. split; [vm_compute; reflexivity|]. split; vm_compute; reflexivity.
Qed.

Lemma internalMigrate_reported_position_witness :
  let env := Examples.refusing Examples.plainText "11" in
  let f := file.setContent Examples.up3 Examples.plainText in
  let w := {| rows := []; txrows := Some []; closed := false; trace := [] |} in
  let pre := "SELECT 1;" ++ nl in
  fst (internalMigrate (E := dbExecer_Tx env) theTx f w)
  = Done (Some (errorString
                  (positionMessage (Examples.syntaxError "11") 2 1
                     (file.LinesBeforeAndAfter Examples.plainText 2 5 5 true))))
  /\ In "BAD SQL;" (file.windowLines Examples.plainText 2 5 5).
Proof.
  intros env f w pre.
  destruct (internalMigrate_reported_position
              (dbExecer_Tx env) theTx f w
              (snd (txExec env theTx (file.Content f) [] w))
              (Examples.syntaxError "11") pre ("BAD SQL;" ++ nl)
              eq_refl eq_refl eq_refl) as (Hrun & Hin & _).
  split.
  - rewrite Hrun. reflexivity.
  - exact Hin.
Defined.

(** ** Errors that are not a pq.Error *)

(** C9 fails on the code.  When Exec fails with an error that is not a
    *pq.Error (here the connection is lost), the type assertion of the
    routine panics: the routine returns no error, and Migrate, which has
    sent the file and begun a transaction, sends nothing more and panics
    too; its deferred close runs, nothing is rolled back. *)
Theorem internalMigrate_panics_on_other_error :
  let env := Examples.lost Examples.plainText in
  let f := file.setContent Examples.up3 Examples.plainText in
  let w := {| rows := [1%N]; txrows := Some [1%N]; closed := false; trace := [] |} in
  internalMigrate (E := dbExecer_Tx env) theTx f w
  = (Panic "interface conversion: error is not *pq.Error",
     {| rows := [1%N]; txrows := Some [1%N]; closed := false;
        trace := [Call (CallExec OnTx Examples.plainText [])
                       (Some (otherError "driver: bad connection"))] |})
  /\ Migrate env Examples.live Examples.up3 (Examples.start [1%N])
     = (Panic "interface conversion: error is not *pq.Error",
        {| rows := [1%N]; txrows := Some [1%N]; closed := true;
           trace := [Send (ItemFile Examples.up3);
                     Call CallBegin None;
                     Call (CallExec OnTx Examples.plainText [])
                          (Some (otherError "driver: bad connection"));
                     Closed] |}).
Proof.
  split; vm_compute; reflexivity.
Qed.

(** ** The connection handle *)

(** C10 as it is worded fails: an Initialize that opens and pings but
    cannot create the table returns an error, and yet has assigned the
    handle; Close and Version on that driver do not touch a nil pointer. *)
Lemma failed_Initialize_leaves_handle :
  exists d e w1,
    Initialize Examples.readOnly Examples.fresh "postgres://localhost/app"
               (Examples.start [])
    = (Done (d, Some e), w1)
    /\ db d = Some theDB
    /\ fst (Close Examples.readOnly d w1) = Done None
    /\ fst (Version Examples.readOnly d w1) = Done (0%N, None).
Proof.
  do 3 eexists. split; [vm_compute; reflexivity|].
  repeat split; vm_compute; reflexivity.
Qed.

(** C10 (amended). Initialize assigns the handle when, and only when, Open
    and Ping have both succeeded, before it creates the table; so an
    Initialize without error has assigned it, and so has one that fails
    only at creating the table.  On a driver whose handle is nil, Close
    and Version panic on the nil pointer, and so does the transactional
    path of Migrate (a call on an open channel that has read a text
    without the marker): it panics at Begin, having sent the file and
    called nothing; the other path panics at Exec.  On a driver whose
    handle is assigned, Close and Version return. *)
Theorem handle_assigned_after_ping (env : Env) (driver0 : Driver) (url : string)
        (w : World) :
  (exists d err w1,
      Initialize env driver0 url w = (Done (d, err), w1)
      /\ (fault env (CallOpen "postgres" url) = None -> fault env CallPing = None ->
          db d = Some theDB)
      /\ (fault env (CallOpen "postgres" url) <> None \/ fault env CallPing <> None ->
          db d = db driver0 /\ err <> None)
      /\ (err = None -> db d = Some theDB))
  /\
  (forall d w',
      db d = None ->
      fst (Close env d w') = Panic nilDereference
      /\ fst (Version env d w') = Panic nilDereference
      /\ (forall f c, closed w' = false -> readFile env f = inr c ->
          fst (Migrate env d f w') = Panic nilDereference)
      /\ (forall f c, closed w' = false -> readFile env f = inr c ->
          canUseTransaction c = true ->
          Migrate env d f w'
          = (Panic nilDereference,
             {| rows := rows w'; txrows := txrows w'; closed := true;
                trace := (trace w' ++ [Send (ItemFile f); Closed])%list |})))
  /\
  (forall d w',
      db d <> None ->
      (exists r, fst (Close env d w') = Done r)
      /\ (exists r, fst (Version env d w') = Done r)).
Proof.
  split; [|split].
  - run_driver; do 3 eexists; (split; [reflexivity|]); cbn [db];
      repeat split; intros; try congruence;
      repeat match goal with H : _ \/ _ |- _ => destruct H end; congruence.
  - intros d w' Hd. split; [|split; [|split]].
    + run_driver; congruence.
    + run_driver; congruence.
    + intros f c Hc Hr. run_driver; congruence.
    + intros f c Hc Hr Hm.
      assert (Hn : negb (canUseTransaction c) = false) by (now rewrite Hm).
      run_driver; flat_trace; try discriminate; reflexivity.
  - intros d w' Hd. destruct d as [[d|]]; [clear Hd | now elim Hd].
    split; run_driver; eexists; reflexivity.
Qed.

Lemma handle_assigned_after_ping_witness :
  fst (Close (Examples.calm Examples.plainText) Examples.fresh (Examples.start []))
  = Panic nilDereference
  /\ fst (Version (Examples.calm Examples.plainText) Examples.fresh (Examples.start []))
     = Panic nilDereference
  /\ fst (Migrate (Examples.calm Examples.plainText) Examples.fresh Examples.up3
                  (Examples.start []))
     = Panic nilDereference.
Proof.
  destruct (handle_assigned_after_ping
              (Examples.calm Examples.plainText) Examples.fresh EmptyString
              (Examples.start [])) as (_ & Hnil & _).
  destruct (Hnil Examples.fresh (Examples.start []) eq_refl)
    as (Hclose & Hversion & Hmigrate & _).
  split; [exact Hclose|]. split; [exact Hversion|].
  exact (Hmigrate Examples.up3 Examples.plainText eq_refl eq_refl).
Defined.

(** ** The current version *)

Lemma maxVersion_bound (t : list N) :
  Forall (fun v => (v <= maxVersion t)%N) t.
Proof.
  induction t as [|x t IH]; constructor; cbn [maxVersion fold_right].
  - apply N.le_max_l.
  - eapply Forall_impl; [|exact IH]. cbn beta. intros v Hv.
    eapply N.le_trans; [exact Hv | apply N.le_max_r].
Qed.

Lemma maxVersion_in (t : list N) : t <> [] -> In (maxVersion t) t.
Proof.
  induction t as [|x t IH]; intros Hne; [now elim Hne|].
  cbn [maxVersion fold_right].
  destruct t as [|y t'].
  - left. cbn. now rewrite N.max_0_r.
  - destruct (N.max_spec x (fold_right N.max 0%N (y :: t'))) as [[_ Hm]|[_ Hm]];
      rewrite Hm.
    + right. apply IH. discriminate.
    + now left.
Qed.

(** C4. Version on a live handle: when the table has no row, or the query
    otherwise ends in sql.ErrNoRows, the result is (0, nil); any other
    error of the query comes back with 0; otherwise the result is the
    greatest version in the table, with a nil error.  The table is not
    changed. *)
Theorem Version_reports (env : Env) (driver : Driver) (w : World) :
  db driver <> None ->
  (fault env (CallQueryRow selectStmt) = None -> rows w = [] ->
   fst (Version env driver w) = Done (0%N, None))
  /\ (fault env (CallQueryRow selectStmt) = Some ErrNoRows ->
      fst (Version env driver w) = Done (0%N, None))
  /\ (forall e, fault env (CallQueryRow selectStmt) = Some e -> e <> ErrNoRows ->
      fst (Version env driver w) = Done (0%N, Some e))
  /\ (fault env (CallQueryRow selectStmt) = None -> rows w <> [] ->
      fst (Version env driver w) = Done (maxVersion (rows w), None)
      /\ In (maxVersion (rows w)) (rows w)
      /\ Forall (fun v => (v <= maxVersion (rows w))%N) (rows w))
  /\ rows (snd (Version env driver w)) = rows w.
Proof.
  intros Hd. destruct driver as [[d|]]; [clear Hd | now elim Hd].
  repeat split.
  - intros Hq Hr. run_driver; congruence.
  - intros Hq. run_driver; congruence.
  - intros e Hq He. run_driver; congruence.
  - run_driver; congruence.
  - now apply maxVersion_in.
  - apply maxVersion_bound.
  - run_driver; reflexivity.
Qed.

Lemma Version_reports_witness :
  fst (Version (Examples.calm Examples.plainText) Examples.live (Examples.start []))
  = Done (0%N, None)
  /\ fst (Version (Examples.calm Examples.plainText) Examples.live
                  (Examples.start [1%N; 3%N; 2%N]))
     = Done (3%N, None).
Proof.
  split.
  - destruct (Version_reports (Examples.calm Examples.plainText) Examples.live
                (Examples.start []) ltac:(discriminate)) as (Hempty & _).
    exact (Hempty eq_refl eq_refl).
  - destruct (Version_reports (Examples.calm Examples.plainText) Examples.live
                (Examples.start [1%N; 3%N; 2%N]) ltac:(discriminate))
      as (_ & _ & _ & Hmax & _).
    destruct (Hmax eq_refl ltac:(discriminate)) as (Hrun & _).
    exact Hrun.
Defined.

(** * Further properties of the driver *)

(** ** The marker *)

Lemma prefix_split (p s : string) :
  String.prefix p s = true <-> exists rest, s = p ++ rest.
Proof.
  revert s. induction p as [|a p IH]; intros [|b s]; simpl.
  - split; [intros _; now exists EmptyString | reflexivity].
  - split; [intros _; now exists (String b s) | reflexivity].
  - split; [discriminate | intros [rest Hr]; discriminate Hr].
  - destruct (ascii_dec a b) as [->|Hab].
    + rewrite IH. split; intros [rest Hr]; exists rest.
      * now rewrite Hr.
      * now injection Hr.
    + split; [discriminate|]. intros [rest Hr]. injection Hr as Hb _.
      now elim Hab.
Qed.

Lemma append_length (a b : string) :
  String.length (a ++ b) = (String.length a + String.length b)%nat.
Proof.
  induction a as [|c a IH]; cbn [append String.length]; [reflexivity | now rewrite IH].
Qed.

Lemma canUseTransaction_marked (sql : string) :
  canUseTransaction sql = false <-> exists rest, sql = noTransactionMarker ++ rest.
Proof.
  rewrite canUseTransaction_marker. unfold HasPrefix.
  rewrite <- prefix_split.
  destruct (String.prefix noTransactionMarker sql); cbn [negb]; split; congruence.
Qed.

(** X1. A text is run outside a transaction exactly when it is the marker
    line followed by anything. *)
Theorem canUseTransaction_false_iff (sql : string) :
  canUseTransaction sql = false <-> exists rest, sql = noTransactionMarker ++ rest.
Proof.
  exact (canUseTransaction_marked sql).
Qed.

(** X2. The marker counts only with a bare line feed right after it: a
    text that has the words of the marker followed by CR LF, a text that
    is the words alone, and every text of fewer than 27 bytes run inside a
    transaction. *)
Theorem canUseTransaction_line_endings :
  (forall rest,
      canUseTransaction
        ("-- migrate: no-transaction" ++ String carriageReturn (String newline rest))
      = true)
  /\ canUseTransaction "-- migrate: no-transaction" = true
  /\ (forall sql, (String.length sql < 27)%nat -> canUseTransaction sql = true).
Proof.
  split; [|split].
  - intros rest. reflexivity.
  - reflexivity.
  - intros sql Hlen. destruct (canUseTransaction sql) eqn:Hc; [reflexivity|].
    apply canUseTransaction_marked in Hc. destruct Hc as [rest ->].
    rewrite append_length in Hlen. cbn in Hlen. lia.
Qed.

(** ** Initialize *)

Lemma serverExec_create (env : Env) (t : list N) :
  serverExec env createStmt [] t = (t, None).
Proof. reflexivity. Qed.

(** X3. Initialize goes through Open, Ping and the creation of the table
    in this order, stops at the first that fails and returns its error;
    the handle is set only in the third case; the rows of the table are
    never changed. *)
Theorem Initialize_first_error (env : Env) (driver0 : Driver) (url : string) (w : World) :
  exists driver err w1,
    Initialize env driver0 url w = (Done (driver, err), w1)
    /\ rows w1 = rows w
    /\ match fault env (CallOpen "postgres" url), fault env CallPing with
       | Some e, _ =>
           err = Some e /\ driver = driver0
           /\ trace w1 = (trace w ++ [Call (CallOpen "postgres" url) (Some e)])%list
       | None, Some e =>
           err = Some e /\ driver = driver0
           /\ trace w1 = (trace w ++ [Call (CallOpen "postgres" url) None;
                                      Call CallPing (Some e)])%list
       | None, None =>
           err = fault env (CallExec OnDB createStmt []) /\ driver = {| db := Some theDB |}
           /\ trace w1 = (trace w ++ [Call (CallOpen "postgres" url) None;
                                      Call CallPing None;
                                      Call (CallExec OnDB createStmt []) err])%list
       end.
Proof.
  unfold Initialize, ensureVersionTableExists, Exec, dbExecer_DB, dbExec,
    sqlOpen, Ping, bind, ret, record, observe. cbn [db].
  destruct (fault env (CallOpen "postgres" url)) as [e|]; cbn [trace];
    [do 3 eexists; split; [reflexivity|]; cbn [rows trace]; auto|].
  destruct (fault env CallPing) as [e|]; cbn [trace];
    [do 3 eexists; split; [reflexivity|]; cbn [rows trace];
     rewrite <- ?app_assoc; auto|].
  destruct (fault env (CallExec OnDB createStmt [])) as [e|]; cbn [trace rows];
    [|rewrite serverExec_create];
    do 3 eexists; (split; [reflexivity|]); cbn [rows trace];
    rewrite <- ?app_assoc; auto.
Qed.

Lemma Initialize_shape (env : Env) (driver0 : Driver) (url : string) (w : World) :
  exists driver err w1,
    Initialize env driver0 url w = (Done (driver, err), w1)
    /\ rows w1 = rows w
    /\ (err = None -> db driver <> None).
Proof.
  unfold Initialize, ensureVersionTableExists, Exec, dbExecer_DB, dbExec,
    sqlOpen, Ping, bind, ret, record, observe. cbn [db].
  destruct (fault env (CallOpen "postgres" url)) as [e|]; cbn [trace];
    [do 3 eexists; split; [reflexivity|]; cbn [rows]; split; [reflexivity | discriminate]|].
  destruct (fault env CallPing) as [e|]; cbn [trace];
    [do 3 eexists; split; [reflexivity|]; cbn [rows]; split; [reflexivity | discriminate]|].
  destruct (fault env (CallExec OnDB createStmt [])) as [e|]; cbn [trace rows];
    [|rewrite serverExec_create];
    do 3 eexists; (split; [reflexivity|]); cbn [rows db];
    (split; [reflexivity | discriminate]).
Qed.

Lemma Version_value (env : Env) (driver : Driver) (w : World) :
  db driver <> None -> fault env (CallQueryRow selectStmt) = None ->
  fst (Version env driver w) = Done (maxVersion (rows w), None).
Proof.
  intros Hd Hq. destruct driver as [[d|]]; [clear Hd | now elim Hd].
  run_driver; reflexivity.
Qed.

Lemma Version_same_rows (env : Env) (driver : Driver) (w w' : World) :
  rows w' = rows w -> fst (Version env driver w') = fst (Version env driver w).
Proof.
  intros Hr. unfold Version, queryRowScan, bind, ret, record, observe.
  destruct (db driver); [|reflexivity].
  destruct (fault env (CallQueryRow selectStmt)) as [[| | |]|]; try reflexivity.
  rewrite Hr. destruct (rows w); reflexivity.
Qed.

(** X4. After an Initialize that returned no error, the driver has its
    handle: Close returns, and Version returns; when the query itself
    does not fail, Version gives the greatest version that was in the
    table before Initialize, 0 for an empty table. *)
Theorem Initialize_then_Version (env : Env) (driver0 driver : Driver) (url : string)
        (w w1 : World) :
  Initialize env driver0 url w = (Done (driver, None), w1) ->
  (exists r, fst (Close env driver w1) = Done r)
  /\ (exists r, fst (Version env driver w1) = Done r)
  /\ (fault env (CallQueryRow selectStmt) = None ->
      fst (Version env driver w1) = Done (maxVersion (rows w), None)).
Proof.
  intros Hi.
  destruct (Initialize_shape env driver0 url w) as (d & err & w1' & Hrun & Hrows & Hd).
  rewrite Hi in Hrun. injection Hrun as <- <- <-.
  assert (Hlive : db driver <> None) by (apply Hd; reflexivity).
  split; [|split].
  - destruct driver as [[d|]]; [|now elim Hlive]. run_driver; eexists; reflexivity.
  - destruct driver as [[d|]]; [|now elim Hlive]. run_driver; eexists; reflexivity.
  - intros Hq. rewrite (Version_value env driver w1 Hlive Hq). now rewrite Hrows.
Qed.

Lemma Initialize_then_Version_witness :
  let env := Examples.calm Examples.plainText in
  fst (Version env Examples.live
               (snd (Initialize env Examples.fresh "postgres://localhost/app"
                                (Examples.start [2%N; 5%N; 3%N]))))
  = Done (5%N, None).
Proof.
  intros env.
  destruct (Initialize_then_Version
              env Examples.fresh Examples.live "postgres://localhost/app"
              (Examples.start [2%N; 5%N; 3%N])
              (snd (Initialize env Examples.fresh "postgres://localhost/app"
                               (Examples.start [2%N; 5%N; 3%N])))
              eq_refl) as (_ & _ & Hv).
  exact (Hv eq_refl).
Defined.

(** ** Migrate: the ways it ends early *)

(** X5. When the file cannot be read, Migrate sends the file and the read
    error, closes the channel and returns; it makes no call on the
    database, whatever the handle is (a nil handle is not touched). *)
Theorem Migrate_read_failure (env : Env) (driver : Driver) (f : file.File)
        (e : error) (w : World) :
  closed w = false -> readFile env f = inl e ->
  Migrate env driver f w
  = (Done tt,
     {| rows := rows w; txrows := txrows w; closed := true;
        trace := (trace w ++ [Send (ItemFile f); Send (ItemError e); Closed])%list |}).
Proof.
  intros Hc Hr. run_driver; flat_trace; try discriminate; reflexivity.
Qed.

Lemma Migrate_read_failure_witness :
  let env := {| readFile := fun _ => inl (otherError "open 003_up.sql: no such file");
                runScript := fun _ t => (t, None);
                fault := fun _ => None |} in
  Migrate env Examples.fresh Examples.up3 (Examples.start [1%N])
  = (Done tt,
     {| rows := [1%N]; txrows := None; closed := true;
        trace := [Send (ItemFile Examples.up3);
                  Send (ItemError (otherError "open 003_up.sql: no such file"));
                  Closed] |}).
Proof.
  intros env.
  exact (Migrate_read_failure env Examples.fresh Examples.up3
           (otherError "open 003_up.sql: no such file") (Examples.start [1%N])
           eq_refl eq_refl).
Defined.

(** X6. When Begin fails, Migrate sends the file and the error of Begin,
    closes the channel and returns: the text of the migration is not
    executed, and neither the table nor the transaction state changes. *)
Theorem Migrate_begin_failure (env : Env) (driver : Driver) (f : file.File)
        (c : string) (e : error) (w : World) :
  closed w = false -> readFile env f = inr c -> db driver <> None ->
  canUseTransaction c = true -> fault env CallBegin = Some e ->
  Migrate env driver f w
  = (Done tt,
     {| rows := rows w; txrows := txrows w; closed := true;
        trace := (trace w ++ [Send (ItemFile f); Call CallBegin (Some e);
                              Send (ItemError e); Closed])%list |}).
Proof.
  intros Hc Hr Hd Hm Hb.
  assert (Hn : negb (canUseTransaction c) = false) by (now rewrite Hm).
  destruct driver as [[d|]]; [clear Hd | now elim Hd].
  run_driver; flat_trace; try discriminate; reflexivity.
Qed.

Lemma Migrate_begin_failure_witness :
  let env := {| readFile := fun _ => inr Examples.plainText;
                runScript := fun _ t => (t, None);
                fault := fun c => match c with
                                  | CallBegin => Some (otherError "driver: bad connection")
                                  | _ => None
                                  end |} in
  Migrate env Examples.live Examples.up3 (Examples.start [1%N])
  = (Done tt,
     {| rows := [1%N]; txrows := None; closed := true;
        trace := [Send (ItemFile Examples.up3);
                  Call CallBegin (Some (otherError "driver: bad connection"));
                  Send (ItemError (otherError "driver: bad connection"));
                  Closed] |}).
Proof.
  intros env.
  exact (Migrate_begin_failure env Examples.live Examples.up3 Examples.plainText
           (otherError "driver: bad connection") (Examples.start [1%N])
           eq_refl eq_refl ltac:(discriminate) eq_refl eq_refl).
Defined.

(** X14. On a channel that is already closed Migrate panics at once: the
    send panics, the deferred close panics in turn, and nothing else has
    happened: the file is not read and the database is not called. *)
Theorem Migrate_on_closed_channel (env : Env) (driver : Driver) (f : file.File)
        (w : World) :
  closed w = true ->
  Migrate env driver f w = (Panic "close of closed channel", w).
Proof.
  intros Hc. unfold Migrate, defer, bind at 1, send, closePipe.
  rewrite Hc. cbv beta iota. rewrite Hc. reflexivity.
Qed.

Lemma Migrate_on_closed_channel_witness :
  let w := {| rows := [1%N]; txrows := None; closed := true; trace := [] |} in
  Migrate (Examples.calm Examples.plainText) Examples.live Examples.up3 w
  = (Panic "close of closed channel", w).
Proof.
  intros w.
  exact (Migrate_on_closed_channel (Examples.calm Examples.plainText) Examples.live
           Examples.up3 w eq_refl).
Defined.

(** The commit of a transaction whose statements all succeeded. *)
Lemma Migrate_tx_commit (env : Env) (driver : Driver) (f : file.File) (c : string)
      (w w1 w2 : World) (tx : sqlTx) :
  readFile env f = inr c ->
  canUseTransaction c = true ->
  (send (ItemFile f) ;;; Begin env (db driver)) w = (Done (inr tx), w1) ->
  internalMigrate (E := dbExecer_Tx env) tx (file.setContent f c) w1 = (Done None, w2) ->
  exists w3 t2,
    Migrate env driver f w = (Done tt, w3)
    /\ txrows w2 = Some t2
    /\ txrows w3 = None
    /\ match fault env CallCommit with
       | Some e =>
           trace w3 = (trace w2 ++ [Call CallCommit (Some e); Send (ItemError e); Closed])%list
           /\ rows w3 = rows w
       | None =>
           trace w3 = (trace w2 ++ [Call CallCommit None; Closed])%list
           /\ rows w3 = t2
       end.
Proof.
  intros Hr Hm Hb Hi.
  destruct (begun_world env driver f w w1 tx Hb) as (Hc & Hc1 & Hrows1 & Htx1).
  destruct (internalMigrate_tx_keeps env tx (file.setContent f c) w1) as (Hc2 & Hrows2 & Htx2).
  rewrite Hi in Hc2, Hrows2, Htx2. cbn [snd] in Hc2, Hrows2, Htx2.
  rewrite Hc1 in Hc2. rewrite Hrows1 in Hrows2.
  assert (Ht : exists t, txrows w2 = Some t).
  { destruct (txrows w2) as [t|]; [now exists t|].
    exfalso. apply Htx2; [rewrite Htx1; discriminate | reflexivity]. }
  destruct Ht as [t Ht].
  unfold Migrate, defer, file.ReadContent. rewrite Hr.
  cbv beta iota. change (file.Content (file.setContent f c)) with c.
  rewrite Hm. cbn [negb].
  rewrite bind_assoc. unfold bind at 1. rewrite Hb.
  unfold bind at 1. rewrite Hi.
  unfold bind, send, Commit, closePipe, record, observe, ret.
  rewrite Ht.
  destruct (fault env CallCommit) as [e|]; cbn [closed]; rewrite Hc2; cbn [closed];
    do 2 eexists; (split; [reflexivity|]); cbn [trace rows txrows];
    rewrite <- ?app_assoc; auto.
Qed.

(** X7. In the transactional path, when every statement succeeded and
    Commit fails, Migrate sends the error of Commit and closes the
    channel; it does not call Rollback, and the committed rows are those
    from before the call. *)
Theorem Migrate_commit_failure (env : Env) (driver : Driver) (f : file.File)
        (c : string) (w w1 w2 : World) (tx : sqlTx) (e : error) :
  readFile env f = inr c ->
  canUseTransaction c = true ->
  (send (ItemFile f) ;;; Begin env (db driver)) w = (Done (inr tx), w1) ->
  internalMigrate (E := dbExecer_Tx env) tx (file.setContent f c) w1 = (Done None, w2) ->
  fault env CallCommit = Some e ->
  exists w3,
    Migrate env driver f w = (Done tt, w3)
    /\ trace w3 = (trace w2 ++ [Call CallCommit (Some e); Send (ItemError e); Closed])%list
    /\ rows w3 = rows w
    /\ txrows w3 = None.
Proof.
  intros Hr Hm Hb Hi He.
  destruct (Migrate_tx_commit env driver f c w w1 w2 tx Hr Hm Hb Hi)
    as (w3 & t2 & Hrun & _ & Htx & Hcase).
  rewrite He in Hcase. destruct Hcase as [Ht Hrows].
  exists w3. auto.
Qed.

Lemma Migrate_commit_failure_witness :
  let env := {| readFile := fun _ => inr Examples.plainText;
                runScript := fun _ t => (t, None);
                fault := fun c => match c with
                                  | CallCommit => Some (otherError "driver: bad connection")
                                  | _ => None
                                  end |} in
  exists w3,
    Migrate env Examples.live Examples.up3 (Examples.start [1%N]) = (Done tt, w3)
    /\ rows w3 = [1%N]
    /\ txrows w3 = None.
Proof.
  intros env.
  destruct (Migrate_commit_failure
              env Examples.live Examples.up3 Examples.plainText
              (Examples.start [1%N]) _ _ theTx (otherError "driver: bad connection")
              eq_refl eq_refl eq_refl eq_refl eq_refl) as (w3 & Hrun & _ & Hrows & Htx).
  exists w3. auto.
Defined.

(** ** Migrate: what a run leaves in the table *)

Lemma direction_eqb_Up (d : direction.Direction) :
  direction.eqb d direction.Up = true <-> d = direction.Up.
Proof. destruct d; cbn; split; congruence. Qed.

Lemma direction_eqb_Down (d : direction.Direction) :
  direction.eqb d direction.Down = true <-> d = direction.Down.
Proof. destruct d; cbn; split; congruence. Qed.

(** Read the equations a run leaves about the two version statements. *)
Ltac read_statements :=
  repeat match goal with
         | H : serverExec _ insertStmt [_] _ = _ |- _ =>
             rewrite serverExec_insert in H
         | H : serverExec _ deleteStmt [_] _ = _ |- _ =>
             rewrite serverExec_delete in H
         | H : (if hasRow ?v ?t then _ else _) = _ |- _ =>
             destruct (hasRow v t) eqn:?
         | H : (_, _) = (_, _) |- _ => inversion H; clear H
         end; subst.

(** A run that returns and has sent no error has run the text and the
    version statement, on either path. *)
Lemma Migrate_clean_rows (env : Env) (driver : Driver) (f : file.File)
      (c : string) (w : World) :
  closed w = false -> readFile env f = inr c -> db driver <> None ->
  fst (Migrate env driver f w) = Done tt ->
  (exists evs,
      trace (snd (Migrate env driver f w)) = (trace w ++ evs)%list
      /\ existsb isErrorSend evs = false) ->
  exists t1,
    serverExec env c [] (rows w) = (t1, None)
    /\ rows (snd (Migrate env driver f w)) = versionRow f t1
    /\ (file.Direction f = direction.Up -> hasRow (file.Version f) t1 = false).
Proof.
  intros Hc Hr Hd.
  destruct driver as [[d|]]; [clear Hd | now elim Hd].
  destruct f as [v dir content]. unfold versionRow. cbn [file.Direction file.Version].
  destruct dir; run_driver;
    intros Hdone (evs & Ht & Hclean); try discriminate Hdone;
    rewrite <- ?app_assoc in Ht; cbn [app] in Ht;
    apply app_inv_head in Ht; subst evs; try discriminate Hclean;
    repeat match goal with
           | H : direction.eqb _ _ = _ |- _ => cbn in H; try discriminate H; clear H
           end;
    read_statements; try discriminate;
    eexists; (split; [reflexivity|]); (split; [reflexivity|]);
    intros; congruence.
Qed.

(** X8. A run of Migrate on a live handle that returns and has sent no
    error on the channel has run the text of the migration with success
    and has recorded the version: the committed rows are those the text
    left, plus the file's version (which was not among them) for Up,
    minus it for Down.  This holds with and without the marker. *)
Theorem Migrate_clean_run (env : Env) (driver : Driver) (f : file.File)
        (c : string) (w : World) :
  closed w = false -> readFile env f = inr c -> db driver <> None ->
  fst (Migrate env driver f w) = Done tt ->
  (exists evs,
      trace (snd (Migrate env driver f w)) = (trace w ++ evs)%list
      /\ existsb isErrorSend evs = false) ->
  exists t1,
    serverExec env c [] (rows w) = (t1, None)
    /\ rows (snd (Migrate env driver f w)) = versionRow f t1
    /\ (file.Direction f = direction.Up -> hasRow (file.Version f) t1 = false).
Proof.
  exact (Migrate_clean_rows env driver f c w).
Qed.

Lemma Migrate_clean_run_witness :
  rows (snd (Migrate (Examples.calm Examples.markedText) Examples.live Examples.up3
                     (Examples.start [1%N; 2%N])))
  = [1%N; 2%N; 3%N].
Proof.
  destruct (Migrate_clean_run
              (Examples.calm Examples.markedText) Examples.live Examples.up3
              Examples.markedText (Examples.start [1%N; 2%N])
              eq_refl eq_refl ltac:(discriminate) eq_refl
              (ex_intro _ [Send (ItemFile Examples.up3);
                           Call (CallExec OnDB Examples.markedText []) None;
                           Call (CallExec OnDB insertStmt [3%N]) None;
                           Closed]
                        (conj eq_refl eq_refl)))
    as (t1 & Ht1 & Hrows & _).
  rewrite Hrows. vm_compute in Ht1. injection Ht1 as <-. reflexivity.
Defined.

Lemma hasRow_app (v : N) (a b : list N) :
  hasRow v (a ++ b) = hasRow v a || hasRow v b.
Proof. unfold hasRow. apply existsb_app. Qed.

Lemma hasRow_deleted (v : N) (t : list N) :
  hasRow v (filter (fun x => negb (N.eqb x v)) t) = false.
Proof.
  unfold hasRow. induction t as [|x t IH]; [reflexivity|].
  cbn [filter]. destruct (N.eqb_spec x v) as [->|Hne]; cbn [negb]; [exact IH|].
  cbn [existsb]. rewrite IH, Bool.orb_false_r.
  apply N.eqb_neq. congruence.
Qed.

Lemma hasRow_In (v : N) (t : list N) : hasRow v t = true -> In v t.
Proof.
  unfold hasRow. intros H. apply existsb_exists in H.
  destruct H as (x & Hx & Heq). apply N.eqb_eq in Heq. now subst.
Qed.

(** X9. After a run of an Up migration that returned and sent no error,
    the file's version is in the table and Version (when its query does
    not fail) reports a number that is at least the file's version; after
    such a run of a Down migration the file's version is not in the
    table. *)
Theorem Migrate_then_Version (env : Env) (driver : Driver) (f : file.File)
        (c : string) (w : World) :
  closed w = false -> readFile env f = inr c -> db driver <> None ->
  fst (Migrate env driver f w) = Done tt ->
  (exists evs,
      trace (snd (Migrate env driver f w)) = (trace w ++ evs)%list
      /\ existsb isErrorSend evs = false) ->
  (file.Direction f = direction.Up ->
   hasRow (file.Version f) (rows (snd (Migrate env driver f w))) = true
   /\ (fault env (CallQueryRow selectStmt) = None ->
       exists n,
         fst (Version env driver (snd (Migrate env driver f w))) = Done (n, None)
         /\ (file.Version f <= n)%N))
  /\ (file.Direction f = direction.Down ->
      hasRow (file.Version f) (rows (snd (Migrate env driver f w))) = false).
Proof.
  intros Hc Hr Hd Hdone Hclean.
  destruct (Migrate_clean_rows env driver f c w Hc Hr Hd Hdone Hclean)
    as (t1 & _ & Hrows & _).
  rewrite Hrows. unfold versionRow. split; intros Hdir; rewrite Hdir.
  - assert (Hin : hasRow (file.Version f) (t1 ++ [file.Version f]) = true).
    { rewrite hasRow_app. unfold hasRow at 2. cbn [existsb].
      rewrite N.eqb_refl. now rewrite Bool.orb_true_r. }
    split; [exact Hin|]. intros Hq.
    exists (maxVersion (rows (snd (Migrate env driver f w)))).
    split; [now apply Version_value|].
    rewrite Hrows. unfold versionRow. rewrite Hdir.
    pose proof (maxVersion_bound (t1 ++ [file.Version f])) as Hb.
    rewrite Forall_forall in Hb. apply Hb. now apply hasRow_In.
  - apply hasRow_deleted.
Qed.

Lemma Migrate_then_Version_witness :
  exists n,
    fst (Version (Examples.calm Examples.plainText) Examples.live
                 (snd (Migrate (Examples.calm Examples.plainText) Examples.live
                               Examples.up3 (Examples.start [1%N; 2%N]))))
    = Done (n, None)
    /\ (3 <= n)%N.
Proof.
  destruct (Migrate_then_Version
              (Examples.calm Examples.plainText) Examples.live Examples.up3
              Examples.plainText (Examples.start [1%N; 2%N])
              eq_refl eq_refl ltac:(discriminate) eq_refl
              (ex_intro _ [Send (ItemFile Examples.up3);
                           Call CallBegin None;
                           Call (CallExec OnTx Examples.plainText []) None;
                           Call (CallExec OnTx insertStmt [3%N]) None;
                           Call CallCommit None;
                           Closed]
                        (conj eq_refl eq_refl)))
    as (Hup & _).
  destruct (Hup eq_refl) as (_ & Hv).
  exact (Hv eq_refl).
Defined.

(** ** Up and then Down *)

Lemma serverExec_neutral (env : Env) :
  (forall q t, runScript env q t = (t, None)) ->
  forall q t, serverExec env q [] t = (t, None).
Proof.
  intros Hs q t. unfold serverExec.
  destruct (String.eqb q insertStmt); [apply Hs|].
  destruct (String.eqb q deleteStmt); [apply Hs|].
  destruct (String.eqb q createStmt); [reflexivity | apply Hs].
Qed.

(** With no call failing and texts that leave the version table alone, a
    run records the version. *)
Lemma Migrate_calm_rows (env : Env) (driver : Driver) (f : file.File)
      (c : string) (w : World) :
  closed w = false -> db driver <> None ->
  (forall k, fault env k = None) ->
  (forall q t, runScript env q t = (t, None)) ->
  readFile env f = inr c ->
  (file.Direction f = direction.Up -> hasRow (file.Version f) (rows w) = false) ->
  fst (Migrate env driver f w) = Done tt
  /\ rows (snd (Migrate env driver f w)) = versionRow f (rows w).
Proof.
  intros Hc Hd Hf Hs Hr Hup.
  destruct driver as [[d|]]; [clear Hd | now elim Hd].
  destruct f as [v dir content]. unfold versionRow.
  cbn [file.Direction file.Version] in *.
  destruct dir; run_driver;
    repeat match goal with
           | H : fault env _ = Some _ |- _ => rewrite Hf in H; discriminate H
           | H : direction.eqb _ _ = _ |- _ => cbn in H; try discriminate H; clear H
           | H : serverExec env _ [] _ = _ |- _ =>
               rewrite (serverExec_neutral env Hs) in H; inversion H; clear H; subst
           end;
    read_statements; try discriminate;
    try (specialize (Hup eq_refl); discriminate Hup);
    split; reflexivity.
Qed.

(** X10. With no call failing and migration texts that leave the version
    table alone: an Up migration of a version that is not in the table,
    followed by the Down migration of the same version (on a new
    channel), leaves the table as it was before the two, and Version
    reports what it reported before. *)
Theorem Up_then_Down_round_trip (env : Env) (driver : Driver) (up down : file.File)
        (cu cd : string) (w : World) :
  closed w = false -> db driver <> None ->
  (forall k, fault env k = None) ->
  (forall q t, runScript env q t = (t, None)) ->
  readFile env up = inr cu -> readFile env down = inr cd ->
  file.Direction up = direction.Up -> file.Direction down = direction.Down ->
  file.Version down = file.Version up ->
  hasRow (file.Version up) (rows w) = false ->
  let w1 := snd (Migrate env driver up w) in
  let w2 := snd (Migrate env driver down (newChannel w1)) in
  rows w1 = (rows w ++ [file.Version up])%list
  /\ rows w2 = rows w
  /\ fst (Version env driver w2) = fst (Version env driver w).
Proof.
  intros Hc Hd Hf Hs Hru Hrd Hup Hdown Hv Hnew w1 w2.
  destruct (Migrate_calm_rows env driver up cu w Hc Hd Hf Hs Hru (fun _ => Hnew))
    as [_ Hrows1].
  fold w1 in Hrows1. unfold versionRow in Hrows1. rewrite Hup in Hrows1.
  assert (Hrows2 : rows w2 = rows w).
  { destruct (Migrate_calm_rows env driver down cd (newChannel w1) eq_refl Hd Hf Hs Hrd)
      as [_ Hrows2].
    - rewrite Hdown. discriminate.
    - fold w2 in Hrows2. unfold versionRow in Hrows2.
      rewrite Hdown, Hv in Hrows2. cbn [newChannel rows] in Hrows2.
      rewrite Hrows2, Hrows1, filter_app, (delete_absent _ _ Hnew).
      cbn [filter]. rewrite N.eqb_refl. cbn [negb]. apply app_nil_r. }
  split; [exact Hrows1|]. split; [exact Hrows2|].
  now apply Version_same_rows.
Qed.

Lemma Up_then_Down_round_trip_witness :
  let env := Examples.calm Examples.plainText in
  let w1 := snd (Migrate env Examples.live Examples.up3 (Examples.start [1%N; 2%N])) in
  let w2 := snd (Migrate env Examples.live Examples.down3 (newChannel w1)) in
  rows w1 = [1%N; 2%N; 3%N] /\ rows w2 = [1%N; 2%N].
Proof.
  intros env w1 w2.
  destruct (Up_then_Down_round_trip
              env Examples.live Examples.up3 Examples.down3
              Examples.plainText Examples.plainText (Examples.start [1%N; 2%N])
              eq_refl ltac:(discriminate) (fun _ => eq_refl) (fun _ _ => eq_refl)
              eq_refl eq_refl eq_refl eq_refl eq_refl eq_refl) as (H1 & H2 & _).
  split; [exact H1 | exact H2].
Defined.

(** ** The routine after a failed text *)

(** X11. On every handle: when the Exec of the text does not come back
    with a nil error, the routine does nothing more (it runs neither the
    INSERT nor the DELETE of the version: the world is the one Exec left)
    and does not return nil. *)
Theorem internalMigrate_stops_at_failure {H : Type} (E : dbExecer H) (tx : H)
        (f : file.File) (w w1 : World) (r : outcome (option error)) :
  Exec tx (file.Content f) [] w = (r, w1) -> r <> Done None ->
  snd (internalMigrate tx f w) = w1
  /\ fst (internalMigrate tx f w) <> Done None.
Proof.
  intros He Hr. unfold internalMigrate, bind. rewrite He.
  destruct r as [[[p| |s|s]|]|msg]; try (now elim Hr);
    try (cbn; split; [reflexivity | discriminate]).
  destruct (strconv.Atoi (pq.Position p)) as [offset|];
    [destruct (0 <=? offset);
     [destruct (file.LineColumnFromOffset (file.Content f) (offset - 1))|]|];
    cbn; split; (reflexivity || discriminate).
Qed.

Lemma internalMigrate_stops_at_failure_witness :
  let env := Examples.refusing Examples.plainText "11" in
  let f := file.setContent Examples.up3 Examples.plainText in
  let w := {| rows := [1%N]; txrows := Some [1%N]; closed := false; trace := [] |} in
  trace (snd (internalMigrate (E := dbExecer_Tx env) theTx f w))
  = [Call (CallExec OnTx Examples.plainText [])
          (Some (PqError (Examples.syntaxError "11")))].
Proof.
  intros env f w.
  destruct (internalMigrate_stops_at_failure
              (dbExecer_Tx env) theTx f w
              (snd (txExec env theTx (file.Content f) [] w))
              (fst (txExec env theTx (file.Content f) [] w))
              eq_refl ltac:(discriminate)) as [Hw _].
  rewrite Hw. reflexivity.
Defined.

(** ** Without a transaction *)

Lemma serverExec_marked (env : Env) (c : string) (t : list N) :
  canUseTransaction c = false -> serverExec env c [] t = runScript env c t.
Proof.
  intros Hm. unfold serverExec.
  destruct (String.eqb c insertStmt); [reflexivity|].
  destruct (String.eqb c deleteStmt); [reflexivity|].
  destruct (String.eqb_spec c createStmt) as [->|Hne]; [discriminate Hm | reflexivity].
Qed.

(** X12. Without a transaction (the text has the marker), when the server
    refuses the text with a pq.Error after changing the table, the
    changes stay: the committed rows after the call are those the text
    left.  The version statement is not run, nothing is rolled back, and
    the error is sent on the channel. *)
Theorem Migrate_without_transaction_keeps_changes (env : Env) (driver : Driver)
        (f : file.File) (c : string) (w : World) (t1 : list N) (p : pq.Error) :
  closed w = false -> readFile env f = inr c -> db driver <> None ->
  canUseTransaction c = false ->
  fault env (CallExec OnDB c []) = None ->
  runScript env c (rows w) = (t1, Some (PqError p)) ->
  exists msg,
    Migrate env driver f w
    = (Done tt,
       {| rows := t1; txrows := txrows w; closed := true;
          trace := (trace w ++ [Send (ItemFile f);
                                Call (CallExec OnDB c []) (Some (PqError p));
                                Send (ItemError (errorString msg));
                                Closed])%list |}).
Proof.
  intros Hc Hr Hd Hm Hf Hs.
  assert (Hn : negb (canUseTransaction c) = true) by (now rewrite Hm).
  assert (Hx : serverExec env c [] (rows w) = (t1, Some (PqError p)))
    by (now rewrite serverExec_marked).
  destruct driver as [[d|]]; [clear Hd | now elim Hd].
  run_driver; flat_trace; try discriminate; eexists; reflexivity.
Qed.

Lemma Migrate_without_transaction_keeps_changes_witness :
  rows (snd (Migrate (Examples.refusing Examples.markedText "") Examples.live
                     Examples.up3 (Examples.start [1%N; 2%N])))
  = [1%N; 2%N; 99%N].
Proof.
  destruct (Migrate_without_transaction_keeps_changes
              (Examples.refusing Examples.markedText "") Examples.live Examples.up3
              Examples.markedText (Examples.start [1%N; 2%N])
              [1%N; 2%N; 99%N] (Examples.syntaxError "")
              eq_refl eq_refl ltac:(discriminate) eq_refl eq_refl eq_refl)
    as [msg Hrun].
  rewrite Hrun. reflexivity.
Defined.

(** ** What a run of Migrate never does *)

(** X13. A run of Migrate calls nothing on the database but Begin, Exec,
    Commit and Rollback (no Open, Ping, Close or query); it runs at most
    two statements; it never calls both Commit and Rollback, and calls
    either only after a Begin that succeeded. *)
Theorem Migrate_calls (env : Env) (driver : Driver) (f : file.File) (w : World) :
  closed w = false ->
  exists evs,
    trace (snd (Migrate env driver f w)) = (trace w ++ evs)%list
    /\ forallb migrationEvent evs = true
    /\ (List.length (filter isExec evs) <= 2)%nat
    /\ existsb isCommit evs && existsb isRollback evs = false
    /\ (existsb isCommit evs || existsb isRollback evs = true ->
        existsb isBeginOk evs = true).
Proof.
  intros Hc.
  run_driver; flat_trace; try discriminate;
    eexists; (split; [reflexivity|]); (split; [reflexivity|]);
    (split; [cbn; lia|]); (split; [reflexivity|]);
    intros Hx; try discriminate Hx; reflexivity.
Qed.

Lemma Migrate_calls_witness :
  exists evs,
    trace (snd (Migrate (Examples.stuck Examples.plainText "11") Examples.live
                        Examples.up3 (Examples.start [])))
    = ([] ++ evs)%list
    /\ forallb migrationEvent evs = true
    /\ existsb isCommit evs && existsb isRollback evs = false.
Proof.
  destruct (Migrate_calls (Examples.stuck Examples.plainText "11") Examples.live
              Examples.up3 (Examples.start []) eq_refl)
    as (evs & Ht & Hm & _ & Hx & _).
  exists evs. auto.
Defined.

(** X17. A run of Migrate sends the file and then at most two errors; it
    sends two exactly when Rollback failed. *)
Theorem Migrate_sends_at_most_two_errors (env : Env) (driver : Driver)
        (f : file.File) (w : World) :
  closed w = false ->
  exists evs,
    trace (snd (Migrate env driver f w)) = (trace w ++ evs)%list
    /\ (List.length (filter isErrorSend evs) <= 2)%nat
    /\ (List.length (filter isErrorSend evs) = 2%nat
        <-> existsb isRollbackFailed evs = true).
Proof.
  intros Hc.
  run_driver; flat_trace; try discriminate;
    eexists; (split; [reflexivity|]); (split; [cbn; lia|]);
    cbn; split; intros Hx; (discriminate Hx || reflexivity).
Qed.

Lemma Migrate_sends_at_most_two_errors_witness :
  exists evs,
    trace (snd (Migrate (Examples.stuck Examples.plainText "11") Examples.live
                        Examples.up3 (Examples.start [])))
    = ([] ++ evs)%list
    /\ List.length (filter isErrorSend evs) = 2%nat.
Proof.
  destruct (Migrate_sends_at_most_two_errors
              (Examples.stuck Examples.plainText "11") Examples.live
              Examples.up3 (Examples.start []) eq_refl)
    as (evs & Ht & _ & Hiff).
  exists evs. split; [exact Ht|].
  apply Hiff. vm_compute in Ht. rewrite <- Ht. reflexivity.
Defined.

(** ** All or nothing *)

(** In the transactional path the committed rows change only in a run
    that returns, sends no error and has a Commit without error. *)
Lemma Migrate_tx_rows (env : Env) (driver : Driver) (f : file.File)
      (c : string) (w : World) :
  closed w = false -> readFile env f = inr c -> canUseTransaction c = true ->
  rows (snd (Migrate env driver f w)) = rows w
  \/ (fst (Migrate env driver f w) = Done tt
      /\ exists evs,
          trace (snd (Migrate env driver f w)) = (trace w ++ evs)%list
          /\ existsb isErrorSend evs = false
          /\ existsb isCommitOk evs = true).
Proof.
  intros Hc Hr Hm.
  assert (Hn : negb (canUseTransaction c) = false) by (now rewrite Hm).
  run_driver; flat_trace; try discriminate;
    first [ left; reflexivity
          | right; split; [reflexivity|]; eexists;
            split; [reflexivity|]; split; reflexivity ].
Qed.

(** X15. In the transactional path a run of Migrate either leaves the
    committed rows of the version table exactly as they were, or it
    returned, sent no error on the channel and committed: there is no
    outcome in between, whichever call failed. *)
Theorem Migrate_all_or_nothing (env : Env) (driver : Driver) (f : file.File)
        (c : string) (w : World) :
  closed w = false -> readFile env f = inr c -> canUseTransaction c = true ->
  rows (snd (Migrate env driver f w)) = rows w
  \/ (fst (Migrate env driver f w) = Done tt
      /\ exists evs,
          trace (snd (Migrate env driver f w)) = (trace w ++ evs)%list
          /\ existsb isErrorSend evs = false
          /\ existsb isCommitOk evs = true).
Proof.
  exact (Migrate_tx_rows env driver f c w).
Qed.

Lemma Migrate_all_or_nothing_witness :
  rows (snd (Migrate (Examples.refusing Examples.plainText "11") Examples.live
                     Examples.up3 (Examples.start [1%N; 2%N])))
  = [1%N; 2%N]
  \/ fst (Migrate (Examples.refusing Examples.plainText "11") Examples.live
                  Examples.up3 (Examples.start [1%N; 2%N])) = Done tt.
Proof.
  destruct (Migrate_all_or_nothing
              (Examples.refusing Examples.plainText "11") Examples.live Examples.up3
              Examples.plainText (Examples.start [1%N; 2%N])
              eq_refl eq_refl eq_refl) as [Hsame | [Hdone _]].
  - left. exact Hsame.
  - right. exact Hdone.
Defined.

(** X16. In the transactional path, after a run of Migrate that panicked
    or sent an error on the channel, Version answers as it did before the
    run. *)
Theorem failed_Migrate_keeps_Version (env : Env) (driver : Driver) (f : file.File)
        (c : string) (w : World) :
  closed w = false -> readFile env f = inr c -> canUseTransaction c = true ->
  (fst (Migrate env driver f w) <> Done tt
   \/ exists evs,
       trace (snd (Migrate env driver f w)) = (trace w ++ evs)%list
       /\ existsb isErrorSend evs = true) ->
  fst (Version env driver (snd (Migrate env driver f w)))
  = fst (Version env driver w).
Proof.
  intros Hc Hr Hm Hfail. apply Version_same_rows.
  destruct (Migrate_tx_rows env driver f c w Hc Hr Hm)
    as [Hsame | (Hdone & evs & Ht & Hclean & _)]; [exact Hsame|].
  exfalso. destruct Hfail as [Hp | (evs' & Ht' & Herr)]; [now elim Hp|].
  rewrite Ht in Ht'. apply app_inv_head in Ht'. subst evs'. congruence.
Qed.

Lemma failed_Migrate_keeps_Version_witness :
  fst (Version (Examples.refusing Examples.plainText "11") Examples.live
               (snd (Migrate (Examples.refusing Examples.plainText "11") Examples.live
                             Examples.up3 (Examples.start [1%N; 2%N]))))
  = Done (2%N, None).
Proof.
  rewrite (failed_Migrate_keeps_Version
             (Examples.refusing Examples.plainText "11") Examples.live Examples.up3
             Examples.plainText (Examples.start [1%N; 2%N])
             eq_refl eq_refl eq_refl
             (or_intror
                (ex_intro _ [Send (ItemFile Examples.up3);
                             Call CallBegin None;
                             Call (CallExec OnTx Examples.plainText [])
                                  (Some (PqError (Examples.syntaxError "11")));
                             Send (ItemError
                                     (errorString
                                        ("ERROR 42601: syntax error at or near BAD in line 2, column 1:"
                                           ++ nl ++ nl ++ "SELECT 1;" ++ nl ++ "BAD SQL;" ++ nl)));
                             Call CallRollback None;
                             Closed]
                          (conj eq_refl eq_refl)))).
  reflexivity.
Defined.
